(** * serial_demo: a periodic serial transmitter

    A shallow embedding of [src/serial_demo/main.cpp] and the properties of
    its one-time port configuration and of its transmission loop.

    The program is a single [main]: it opens a serial device, reads the
    current line settings, rewrites them (115200 8N1, raw, no flow control),
    commits them, and then writes an incrementing decimal counter forever.

    The operating system is modelled as a [world] that answers every system
    call; the program is a deterministic function from a world to the trace
    of calls it makes and the control state it reaches. *)

From Stdlib Require Import ZArith NArith Lia Bool String Ascii List.
From stdpp Require Import base list.
Import ListNotations.

Local Open Scope Z_scope.

(* ===================================================================== *)
(** ** Machine integers *)
(* ===================================================================== *)

(** Conversion to [unsigned int] / [tcflag_t] (32 bits): reduction modulo
    2^32.  It is what happens to the [int] value [~MASK] when it meets an
    unsigned operand. *)
Definition u32 (z : Z) : Z := z mod 4294967296.

Definition INT_MAX : Z := 2147483647.
Definition INT_MIN : Z := -2147483648.

(** Conversion to [int] (32 bits, two's complement). *)
Definition wrap_int (z : Z) : Z := (z + 2147483648) mod 4294967296 - 2147483648.

(* ===================================================================== *)
(** ** The platform: Linux termios

    The source includes [<termios.h>], [<fcntl.h>] and [<unistd.h>]; the
    constants and the two speed setters below are the platform's, not the
    repository's.  The device path [/dev/ttyUSB0] is a Linux name, so the
    values are the ones of the Linux terminal ABI
    ([asm-generic/termbits.h]) and of the GNU C library on top of it. *)
(* ===================================================================== *)

Module Linux.

(** [c_iflag] bits. *)
Definition IGNBRK : Z := 1.        (* 0000001 *)
Definition IXON   : Z := 1024.     (* 0002000 *)
Definition IXANY  : Z := 2048.     (* 0004000 *)
Definition IXOFF  : Z := 4096.     (* 0010000 *)
(** glibc's private marker "input speed is 0" kept in [c_iflag]. *)
Definition IBAUD0 : Z := 2147483648. (* 020000000000 *)

(** [c_cflag] bits. *)
Definition CBAUD   : Z := 4111.    (* 0010017 *)
Definition CBAUDEX : Z := 4096.    (* 0010000 *)
Definition CSIZE   : Z := 48.      (* 0000060 *)
Definition CS5     : Z := 0.
Definition CS6     : Z := 16.
Definition CS7     : Z := 32.
Definition CS8     : Z := 48.      (* 0000060 *)
Definition CSTOPB  : Z := 64.      (* 0000100 *)
Definition CREAD   : Z := 128.     (* 0000200 *)
Definition PARENB  : Z := 256.     (* 0000400 *)
Definition PARODD  : Z := 512.     (* 0001000 *)
Definition CLOCAL  : Z := 2048.    (* 0004000 *)
Definition CRTSCTS : Z := 2147483648. (* 020000000000 *)

(** [c_lflag] bits. *)
Definition ISIG   : Z := 1.
Definition ICANON : Z := 2.
Definition ECHO   : Z := 8.

(** [speed_t] codes. *)
Definition B0      : Z := 0.
Definition B57600  : Z := 4097.    (* 0010001 *)
Definition B115200 : Z := 4098.    (* 0010002 *)
Definition MAX_BAUD : Z := 4111.   (* B4000000 *)

(** [c_cc] subscripts and size. *)
Definition VTIME : nat := 5.
Definition VMIN  : nat := 6.
Definition NCCS  : nat := 32.

(** [open] flags and the [tcsetattr] action. *)
Definition O_WRONLY : Z := 1.
Definition O_NOCTTY : Z := 256.    (* 0400 *)
Definition TCSANOW  : Z := 0.

End Linux.
Import Linux.

(** [struct termios] as the C library declares it. *)
Record termios : Type := mk_termios {
  c_iflag  : Z;        (* input mode flags, tcflag_t *)
  c_oflag  : Z;        (* output mode flags *)
  c_cflag  : Z;        (* control mode flags *)
  c_lflag  : Z;        (* local mode flags *)
  c_line   : Z;        (* line discipline *)
  c_cc     : list Z;   (* control characters, cc_t[NCCS] *)
  c_ispeed : Z;        (* input speed *)
  c_ospeed : Z         (* output speed *)
}.

(** Field assignment, [tty.f = v]. *)
Definition set_iflag (t : termios) (v : Z) : termios :=
  mk_termios v (c_oflag t) (c_cflag t) (c_lflag t) (c_line t) (c_cc t)
             (c_ispeed t) (c_ospeed t).
Definition set_oflag (t : termios) (v : Z) : termios :=
  mk_termios (c_iflag t) v (c_cflag t) (c_lflag t) (c_line t) (c_cc t)
             (c_ispeed t) (c_ospeed t).
Definition set_cflag (t : termios) (v : Z) : termios :=
  mk_termios (c_iflag t) (c_oflag t) v (c_lflag t) (c_line t) (c_cc t)
             (c_ispeed t) (c_ospeed t).
Definition set_lflag (t : termios) (v : Z) : termios :=
  mk_termios (c_iflag t) (c_oflag t) (c_cflag t) v (c_line t) (c_cc t)
             (c_ispeed t) (c_ospeed t).
Definition set_cc (t : termios) (i : nat) (v : Z) : termios :=
  mk_termios (c_iflag t) (c_oflag t) (c_cflag t) (c_lflag t) (c_line t)
             (<[i := v]> (c_cc t)) (c_ispeed t) (c_ospeed t).
Definition set_ispeed (t : termios) (v : Z) : termios :=
  mk_termios (c_iflag t) (c_oflag t) (c_cflag t) (c_lflag t) (c_line t) (c_cc t)
             v (c_ospeed t).
Definition set_ospeed (t : termios) (v : Z) : termios :=
  mk_termios (c_iflag t) (c_oflag t) (c_cflag t) (c_lflag t) (c_line t) (c_cc t)
             (c_ispeed t) v.

(** [termios tty{}]: value initialisation, every member zero. *)
Definition tty0 : termios :=
  mk_termios 0 0 0 0 0 (replicate NCCS 0) 0 0.

(** The settings of a USB serial port as the kernel creates it: 9600 baud,
    8 data bits, receiver on, cooked mode with echo ([stty] shows
    [speed 9600 baud; ... cs8 hupcl cread clocal ... icanon echo]). *)
Definition tty_9600 : termios :=
  mk_termios 1280 5 3261 35387 0
    ([3; 28; 127; 21; 4; 0; 1; 0; 17; 19; 26; 0; 18; 15; 23; 22]
       ++ replicate 16 0)
    13 13.

(** The same port left by another program at 115200 baud, 7 data bits,
    even parity, raw, with other read parameters. *)
Definition tty_115200_7E1 : termios :=
  mk_termios 256 0 5410 0 0
    ([3; 28; 127; 21; 4; 7; 4; 0; 17; 19; 26; 0; 18; 15; 23; 22]
       ++ replicate 16 0)
    4098 4098.

(** A structure as [tcgetattr] fills it: every flag word is a [tcflag_t],
    every speed a [speed_t], and [c_cc] has [NCCS] bytes. *)
Definition is_u32 (z : Z) : Prop := 0 <= z < 4294967296.
Definition termios_wf (t : termios) : Prop :=
  is_u32 (c_iflag t) /\ is_u32 (c_oflag t) /\ is_u32 (c_cflag t) /\
  is_u32 (c_lflag t) /\ length (c_cc t) = NCCS /\
  Forall (fun c => 0 <= c < 256) (c_cc t).

(** The two bit operations the source uses on flag words.
    [c & ~m]: [~m] is computed on the promoted mask and converted to
    [tcflag_t]; [c | m]. *)
Definition clear_bits (c m : Z) : Z := Z.land c (u32 (Z.lnot m)).
Definition set_bits (c m : Z) : Z := Z.lor c (u32 m).

(** The speed functions of the C library (glibc on Linux, before its 2.42
    rewrite; [sysdeps/unix/sysv/linux/speed.c]).  The speed code lives in the
    [CBAUD|CBAUDEX] bits of [c_cflag], which is where the kernel reads it.
    The functions return [-1] (EINVAL) on a code outside the table and
    otherwise [0]; the second component is the structure afterwards. *)
Definition speed_invalid (speed : Z) : bool :=
  negb (Z.land speed (u32 (Z.lnot CBAUD)) =? 0)
  && ((speed <? B57600) || (MAX_BAUD <? speed)).

Definition cfsetospeed (t : termios) (speed : Z) : Z * termios :=
  if speed_invalid speed then (-1, t)
  else
    let t := set_ospeed t speed in
    let t := set_cflag t (clear_bits (c_cflag t) (Z.lor CBAUD CBAUDEX)) in
    let t := set_cflag t (set_bits (c_cflag t) speed) in
    (0, t).

Definition cfsetispeed (t : termios) (speed : Z) : Z * termios :=
  if speed_invalid speed then (-1, t)
  else
    let t := set_ispeed t speed in
    if speed =? 0 then (0, set_iflag t (set_bits (c_iflag t) IBAUD0))
    else
      let t := set_iflag t (clear_bits (c_iflag t) IBAUD0) in
      let t := set_cflag t (clear_bits (c_cflag t) (Z.lor CBAUD CBAUDEX)) in
      let t := set_cflag t (set_bits (c_cflag t) speed) in
      (0, t).

Definition cfgetospeed (t : termios) : Z :=
  Z.land (c_cflag t) (Z.lor CBAUD CBAUDEX).

Definition cfgetispeed (t : termios) : Z :=
  if negb (Z.land (c_iflag t) IBAUD0 =? 0) then 0
  else Z.land (c_cflag t) (Z.lor CBAUD CBAUDEX).

(* ===================================================================== *)
(** ** Port configuration, main.cpp lines 25-37 *)
(* ===================================================================== *)

(** The thirteen statements between [tcgetattr] and [tcsetattr], in source
    order: the two speed calls, whose results the source discards, and the
    eleven assignments to the flag words and control characters. *)
Definition set_speed (tty : termios) : termios :=
  let tty := snd (cfsetispeed tty B115200) in                          (* 25 *)
  let tty := snd (cfsetospeed tty B115200) in                          (* 26 *)
  tty.

Definition set_modes (tty : termios) : termios :=
  let tty := set_cflag tty (set_bits (clear_bits (c_cflag tty) CSIZE) CS8) in (* 27 *)
  let tty := set_iflag tty (clear_bits (c_iflag tty) IGNBRK) in        (* 28 *)
  let tty := set_lflag tty 0 in                                        (* 29 *)
  let tty := set_oflag tty 0 in                                        (* 30 *)
  let tty := set_cc tty VMIN 0 in                                      (* 31 *)
  let tty := set_cc tty VTIME 5 in                                     (* 32 *)
  let tty := set_iflag tty
               (clear_bits (c_iflag tty) (Z.lor (Z.lor IXON IXOFF) IXANY)) in (* 33 *)
  let tty := set_cflag tty (set_bits (c_cflag tty) (Z.lor CLOCAL CREAD)) in   (* 34 *)
  let tty := set_cflag tty (clear_bits (c_cflag tty) (Z.lor PARENB PARODD)) in (* 35 *)
  let tty := set_cflag tty (clear_bits (c_cflag tty) CSTOPB) in        (* 36 *)
  let tty := set_cflag tty (clear_bits (c_cflag tty) CRTSCTS) in       (* 37 *)
  tty.

Definition configure (tty : termios) : termios := set_modes (set_speed tty).

(** How the line settings read: the queries a peer or a test would make on
    a [termios] value. *)
Definition data_bits (t : termios) : Z :=
  let cs := Z.land (c_cflag t) CSIZE in
  if cs =? CS5 then 5 else if cs =? CS6 then 6 else if cs =? CS7 then 7 else 8.
Definition parity_enabled (t : termios) : bool :=
  negb (Z.land (c_cflag t) PARENB =? 0).
Definition stop_bits (t : termios) : Z :=
  if Z.land (c_cflag t) CSTOPB =? 0 then 1 else 2.
Definition sw_flow_control (t : termios) : bool :=
  negb (Z.land (c_iflag t) (Z.lor (Z.lor IXON IXOFF) IXANY) =? 0).
Definition hw_flow_control (t : termios) : bool :=
  negb (Z.land (c_cflag t) CRTSCTS =? 0).
Definition canonical (t : termios) : bool := negb (Z.land (c_lflag t) ICANON =? 0).
Definition echo (t : termios) : bool := negb (Z.land (c_lflag t) ECHO =? 0).
Definition signals (t : termios) : bool := negb (Z.land (c_lflag t) ISIG =? 0).
(** [VTIME] counts tenths of a second. *)
Definition read_timeout_ms (t : termios) : option Z :=
  (fun v => 100 * v) <$> (c_cc t !! VTIME).
Definition read_min_bytes (t : termios) : option Z := c_cc t !! VMIN.

(* ===================================================================== *)
(** ** Message formatting, main.cpp line 48 *)
(* ===================================================================== *)

(** The character of one decimal digit, ['0' + d]. *)
Definition digit_char (d : Z) : ascii := ascii_of_N (Z.to_N (48 + d)).

(** Decimal digits of an unsigned value, least significant digit first,
    each one put in front of what is already there.  [fuel] bounds the number
    of digits; [decimal] supplies one more than the binary length, which is
    never reached. *)
Fixpoint digits_from (fuel : nat) (u : Z) (acc : string) : string :=
  match fuel with
  | O => acc
  | S fuel' =>
      let acc := String (digit_char (u mod 10)) acc in
      if u <? 10 then acc else digits_from fuel' (u / 10) acc
  end.

Definition decimal (u : Z) : string :=
  digits_from (S (Z.to_nat (Z.log2 u))) u EmptyString.

(** [std::to_string(int)]: a minus sign for a negative value, then the
    digits of the magnitude. *)
Definition to_string (val : Z) : string :=
  if val <? 0 then String "-"%char (decimal (- val)) else decimal val.

Definition newline : string := String "010"%char EmptyString.

(** [std::to_string(count) + "\n"]. *)
Definition message (count : Z) : string := String.append (to_string count) newline.

(** [count++] on an [int].  Past [INT_MAX] the language leaves the result
    open; the model takes the two's-complement value the target produces. *)
Definition incr (count : Z) : Z := wrap_int (count + 1).

(** Reading a message back, as the receiving side does: an optional minus
    sign, at least one decimal digit, one newline, nothing else. *)
Definition is_digit (c : ascii) : bool :=
  (48 <=? Z.of_N (N_of_ascii c)) && (Z.of_N (N_of_ascii c) <=? 57).

Fixpoint digits_value (a : Z) (s : string) : option Z :=
  match s with
  | EmptyString => Some a
  | String c s' =>
      if is_digit c then digits_value (10 * a + (Z.of_N (N_of_ascii c) - 48)) s'
      else None
  end.

Fixpoint all_digits (s : string) : bool :=
  match s with
  | EmptyString => true
  | String c s' => is_digit c && all_digits s'
  end.

Definition parse_unsigned (s : string) : option Z :=
  match s with
  | EmptyString => None
  | _ => digits_value 0 s
  end.

Definition parse_int (s : string) : option Z :=
  match s with
  | String "-"%char s' => Z.opp <$> parse_unsigned s'
  | _ => parse_unsigned s
  end.

(** Splits off the final newline; [None] when there is none. *)
Fixpoint chop_newline (s : string) : option string :=
  match s with
  | EmptyString => None
  | String c s' =>
      if (c =? "010")%char then
        match s' with
        | EmptyString => Some EmptyString
        | _ => String c <$> chop_newline s'
        end
      else String c <$> chop_newline s'
  end.

Definition decode (msg : string) : option Z :=
  chop_newline msg ≫= parse_int.

(** A canonical decimal numeral for [n]: digits only, at least one, value
    [n], and no leading zero (the numeral of zero is the single digit). *)
Definition canonical_decimal (s : string) (n : Z) : Prop :=
  all_digits s = true /\ parse_unsigned s = Some n /\
  (s = "0"%string \/ exists c s', s = String c s' /\ c <> "0"%char).

(** What the digit loop puts in front of what is already there, for an
    unsigned value [u]: a numeral [d] of value [u], most significant digit
    first. *)
Record numeral_of (u : Z) (d : string) : Prop := mk_numeral_of {
  numeral_digits : all_digits d = true;
  numeral_value : forall v,
      digits_value v d = Some (v * 10 ^ Z.of_nat (String.length d) + u);
  numeral_head : exists c d', d = String c d' /\ (0 < u -> c <> "0"%char);
  numeral_zero : u = 0 -> d = "0"%string
}.

(* ===================================================================== *)
(** ** The operating system and the trace of a run *)
(* ===================================================================== *)

(** The answers of the system to the calls [main] makes.  A call that fails
    returns a negative (or non-zero) value and leaves a cause in [errno]. *)
Record world : Type := mk_world {
  open_ret        : string -> Z -> Z;           (* descriptor, or -1 *)
  open_errno      : Z;
  tcgetattr_ret   : Z -> Z;                     (* 0, or -1 *)
  tcgetattr_tty   : Z -> termios -> termios;    (* the structure, filled in *)
  tcgetattr_errno : Z;
  tcsetattr_ret   : Z -> Z -> termios -> Z;     (* 0, or -1 *)
  tcsetattr_errno : Z;
  write_ret       : N -> Z -> string -> Z       (* result of the k-th write *)
}.

(** What the process does that is visible outside of it. *)
Inductive event : Type :=
| EvOpen (path : string) (flags ret : Z)
| EvTcgetattr (fd ret : Z)
| EvTcsetattr (fd action : Z) (tty : termios) (ret : Z)
| EvPerror (s : string) (errno : Z)      (* "s: <strerror(errno)>" on stderr *)
| EvClose (fd : Z)
| EvWrite (fd : Z) (buf : string) (count : Z) (ret : Z)
| EvSleep (microseconds : Z).

(** Where control is: in the loop, about to run iteration [k] with the
    counter at [count]; or gone, with an exit status. *)
Inductive state : Type :=
| Looping (fd count : Z) (k : N)
| Exited (status : Z).

Definition port : string := "/dev/ttyUSB0"%string.
Definition interval : Z := 100.

(** Lines 11-46: open, query, rewrite, commit. *)
Definition startup (w : world) : list event * state :=
  let fd := open_ret w port (Z.lor O_WRONLY O_NOCTTY) in
  let tr := [EvOpen port (Z.lor O_WRONLY O_NOCTTY) fd] in
  if fd <? 0 then
    (tr ++ [EvPerror "open"%string (open_errno w)], Exited 1)
  else
    let r := tcgetattr_ret w fd in
    let tr := tr ++ [EvTcgetattr fd r] in
    if negb (r =? 0) then
      (tr ++ [EvPerror "tcgetattr"%string (tcgetattr_errno w); EvClose fd], Exited 1)
    else
      let tty := tcgetattr_tty w fd tty0 in                      (* 18-19 *)
      let tty := configure tty in                                (* 25-37 *)
      let r := tcsetattr_ret w fd TCSANOW tty in
      let tr := tr ++ [EvTcsetattr fd TCSANOW tty r] in
      if negb (r =? 0) then
        (tr ++ [EvPerror "tcsetattr"%string (tcsetattr_errno w); EvClose fd], Exited 1)
      else
        (tr, Looping fd 0 0%N).

(** Lines 48-50: one pass through the body of [while (true)].  The value of
    [write] is dropped by the source; it appears in the event only. *)
Definition iteration (w : world) (s : state) : list event * state :=
  match s with
  | Looping fd count k =>
      let msg := message count in                    (* 48: to_string(count++) *)
      let count := incr count in
      let r := write_ret w k fd msg in               (* 49 *)
      ([EvWrite fd msg (Z.of_nat (String.length msg)) r;
        EvSleep interval],                           (* 50 *)
       Looping fd count (N.succ k))
  | Exited status => ([], Exited status)
  end.

Definition advance (w : world) (r : list event * state) : list event * state :=
  let '(ev, s) := iteration w (snd r) in (fst r ++ ev, s).

(** The run up to the end of the [n]-th iteration.  The loop has no exit, so
    a run is known by its prefixes. *)
Definition run (w : world) (n : N) : list event * state :=
  N.iter n (advance w) (startup w).

Definition trace (w : world) (n : N) : list event := fst (run w n).
Definition final (w : world) (n : N) : state := snd (run w n).

(** The configuration phase succeeded: control reached the loop. *)
Definition configured (w : world) : Prop :=
  exists fd, snd (startup w) = Looping fd 0 0%N.

(** The messages written, in order. *)
Definition writes (tr : list event) : list string :=
  omap (fun e => match e with EvWrite _ buf _ _ => Some buf | _ => None end) tr.

Definition is_write (e : event) : bool :=
  match e with EvWrite _ _ _ _ => true | _ => false end.

(** The [k]-th message of a run (from 0), when the loop is reached. *)
Definition transmitted (w : world) (k : N) : option string :=
  match final w k with
  | Looping _ count _ => Some (message count)
  | Exited _ => None
  end.

(** Descriptors opened and not yet closed at the end of a trace. *)
Fixpoint open_handles (tr : list event) (held : list Z) : list Z :=
  match tr with
  | [] => held
  | EvOpen _ _ fd :: tr' =>
      open_handles tr' (if fd <? 0 then held else fd :: held)
  | EvClose fd :: tr' =>
      open_handles tr' (filter (fun h => h <> fd) held)
  | _ :: tr' => open_handles tr' held
  end.

(** A device that accepts everything, for concrete runs; it starts out at
    9600 baud. *)
Definition mock : world :=
  mk_world (fun _ _ => 3) 0 (fun _ => 0) (fun _ _ => tty_9600) 0
           (fun _ _ _ => 0) 0 (fun _ _ buf => Z.of_nat (String.length buf)).

(** Devices that fail at each of the three steps. *)
Definition no_device : world :=
  mk_world (fun _ _ => -1) 2 (fun _ => 0) (fun _ _ => tty_9600) 0
           (fun _ _ _ => 0) 0 (fun _ _ _ => -1).
Definition not_a_tty : world :=
  mk_world (fun _ _ => 3) 0 (fun _ => -1) (fun _ _ => tty_9600) 25
           (fun _ _ _ => 0) 0 (fun _ _ _ => -1).
Definition rejects_settings : world :=
  mk_world (fun _ _ => 3) 0 (fun _ => 0) (fun _ _ => tty_9600) 0
           (fun _ _ _ => -1) 22 (fun _ _ _ => -1).
(** A device on which every write fails. *)
Definition write_fails : world :=
  mk_world (fun _ _ => 3) 0 (fun _ => 0) (fun _ _ => tty_9600) 0
           (fun _ _ _ => 0) 0 (fun _ _ _ => -1).

(** The bits of [c_cflag] and [c_iflag] that the configuration writes:
    those named in lines 27-37, and those the two speed calls own. *)
Definition cflag_named : Z :=
  Z.lor CSIZE (Z.lor CLOCAL (Z.lor CREAD (Z.lor PARENB (Z.lor PARODD
    (Z.lor CSTOPB CRTSCTS))))).
Definition cflag_named_value : Z := Z.lor CS8 (Z.lor CLOCAL CREAD).
Definition cflag_speed : Z := Z.lor CBAUD CBAUDEX.
Definition cflag_written : Z := Z.lor cflag_speed cflag_named.
Definition cflag_value : Z := Z.lor B115200 (Z.lor CS8 (Z.lor CLOCAL CREAD)).
Definition iflag_named : Z := Z.lor IGNBRK (Z.lor IXON (Z.lor IXOFF IXANY)).
Definition iflag_cleared : Z := Z.lor IBAUD0 iflag_named.

(** The bits in which two flag words differ. *)
Definition changed_bits (before after : Z) : Z := Z.lxor before after.

(** The settings in force on the device: those of the last [tcsetattr]
    that returned 0. *)
Definition accepted (e : event) : option termios :=
  match e with
  | EvTcsetattr _ _ tty r => if r =? 0 then Some tty else None
  | _ => None
  end.
Definition committed (tr : list event) : option termios :=
  last (omap accepted tr).

(** 115200 baud both ways, 8N1, no flow control, raw. *)
Definition line_115200_8N1_raw (t : termios) : Prop :=
  cfgetispeed t = B115200 /\ cfgetospeed t = B115200 /\
  data_bits t = 8 /\ parity_enabled t = false /\ stop_bits t = 1 /\
  sw_flow_control t = false /\ hw_flow_control t = false /\
  canonical t = false /\ echo t = false /\ signals t = false.

(** What the configuration leaves alone, read two ways: with only the bits
    that lines 27-37 name, and with the bits the speed calls write added. *)
Definition cc_kept (before after : termios) : Prop :=
  forall i : nat, i <> VMIN -> i <> VTIME -> c_cc after !! i = c_cc before !! i.

Definition frame_named_only (before after : termios) : Prop :=
  Z.land (changed_bits (c_cflag before) (c_cflag after)) (Z.lnot cflag_named) = 0 /\
  c_iflag after = Z.ldiff (c_iflag before) iflag_named /\
  cc_kept before after /\
  c_lflag after = 0 /\ c_oflag after = 0.

Definition frame_with_speed (before after : termios) : Prop :=
  Z.land (changed_bits (c_cflag before) (c_cflag after)) (Z.lnot cflag_written) = 0 /\
  c_cflag after = Z.lor (Z.ldiff (c_cflag before) cflag_written) cflag_value /\
  c_iflag after = Z.ldiff (c_iflag before) iflag_cleared /\
  cc_kept before after /\
  c_line after = c_line before /\
  c_lflag after = 0 /\ c_oflag after = 0.

(** The three ways the configuration phase can fail. *)
Definition the_fd (w : world) : Z := open_ret w port (Z.lor O_WRONLY O_NOCTTY).
Definition baseline (w : world) : termios := tcgetattr_tty w (the_fd w) tty0.
Definition open_failed (w : world) : Prop := the_fd w < 0.
Definition query_failed (w : world) : Prop :=
  0 <= the_fd w /\ tcgetattr_ret w (the_fd w) <> 0.
Definition apply_failed (w : world) : Prop :=
  0 <= the_fd w /\ tcgetattr_ret w (the_fd w) = 0 /\
  tcsetattr_ret w (the_fd w) TCSANOW (configure (baseline w)) <> 0.
Definition all_succeeded (w : world) : Prop :=
  0 <= the_fd w /\ tcgetattr_ret w (the_fd w) = 0 /\
  tcsetattr_ret w (the_fd w) TCSANOW (configure (baseline w)) = 0.

(** The events of the loop body. *)
Definition loop_event (fd : Z) (e : event) : Prop :=
  match e with
  | EvWrite fd' _ _ _ => fd' = fd
  | EvSleep us => us = interval
  | _ => False
  end.

(** The events of the three configuration calls when all succeed. *)
Definition startup_ok_events (w : world) : list event :=
  [EvOpen port (Z.lor O_WRONLY O_NOCTTY) (the_fd w);
   EvTcgetattr (the_fd w) 0;
   EvTcsetattr (the_fd w) TCSANOW (configure (baseline w)) 0].

(** The outcome of the configuration phase, case by case. *)
Inductive startup_outcome (w : world) : list event * state -> Prop :=
| StartOpenFailed :
    open_failed w ->
    startup_outcome w
      ([EvOpen port (Z.lor O_WRONLY O_NOCTTY) (the_fd w);
        EvPerror "open"%string (open_errno w)], Exited 1)
| StartQueryFailed :
    query_failed w ->
    startup_outcome w
      ([EvOpen port (Z.lor O_WRONLY O_NOCTTY) (the_fd w);
        EvTcgetattr (the_fd w) (tcgetattr_ret w (the_fd w));
        EvPerror "tcgetattr"%string (tcgetattr_errno w);
        EvClose (the_fd w)], Exited 1)
| StartApplyFailed :
    apply_failed w ->
    startup_outcome w
      ([EvOpen port (Z.lor O_WRONLY O_NOCTTY) (the_fd w);
        EvTcgetattr (the_fd w) 0;
        EvTcsetattr (the_fd w) TCSANOW (configure (baseline w))
          (tcsetattr_ret w (the_fd w) TCSANOW
             (configure (baseline w)));
        EvPerror "tcsetattr"%string (tcsetattr_errno w);
        EvClose (the_fd w)], Exited 1)
| StartSucceeded :
    all_succeeded w ->
    startup_outcome w (startup_ok_events w, Looping (the_fd w) 0 0%N).

(** Counting the events of one kind in a trace. *)
Fixpoint count_of (p : event -> bool) (tr : list event) : nat :=
  match tr with
  | [] => 0%nat
  | e :: tr' => ((if p e then 1 else 0) + count_of p tr')%nat
  end.

Definition is_open (e : event) : bool :=
  match e with EvOpen _ _ _ => true | _ => false end.
Definition is_query (e : event) : bool :=
  match e with EvTcgetattr _ _ => true | _ => false end.
Definition is_apply (e : event) : bool :=
  match e with EvTcsetattr _ _ _ _ => true | _ => false end.
Definition is_perror (e : event) : bool :=
  match e with EvPerror _ _ => true | _ => false end.
Definition is_close (e : event) : bool :=
  match e with EvClose _ => true | _ => false end.
Definition is_sleep (e : event) : bool :=
  match e with EvSleep _ => true | _ => false end.

(** The two events of iteration [k] of a run that reached the loop. *)
Definition iteration_events (w : world) (k : nat) : list event :=
  let msg := message (wrap_int (Z.of_nat k)) in
  [EvWrite (the_fd w) msg (Z.of_nat (String.length msg))
     (write_ret w (N.of_nat k) (the_fd w) msg);
   EvSleep interval].

(** The bytes handed to the device, one write after the other. *)
Definition stream (tr : list event) : string :=
  fold_right String.append EmptyString (writes tr).

(** Cutting a byte stream at its newlines: the complete lines, without
    their newline, and what follows the last newline. *)
Fixpoint records (s : string) : list string * string :=
  match s with
  | EmptyString => ([], EmptyString)
  | String c s' =>
      let '(ls, rest) := records s' in
      if (c =? "010")%char then (EmptyString :: ls, rest)
      else
        match ls with
        | [] => ([], String c rest)
        | l :: ls' => (String c l :: ls', rest)
        end
  end.

Fixpoint has_newline (s : string) : bool :=
  match s with
  | EmptyString => false
  | String c s' => (c =? "010")%char || has_newline s'
  end.

(** Two structures that differ at most in what the configuration
    overwrites. *)
Definition same_elsewhere (t1 t2 : termios) : Prop :=
  Z.ldiff (c_cflag t1) cflag_written = Z.ldiff (c_cflag t2) cflag_written /\
  Z.ldiff (c_iflag t1) iflag_cleared = Z.ldiff (c_iflag t2) iflag_cleared /\
  c_line t1 = c_line t2 /\
  length (c_cc t1) = length (c_cc t2) /\
  (forall i : nat, i <> VMIN -> i <> VTIME -> c_cc t1 !! i = c_cc t2 !! i).

(** The process has exited with status 1, did so before the first
    iteration, and printed one diagnostic, naming the call [step] with
    the cause [errno]; it wrote nothing to the device. *)
Definition exits_with_diagnostic
    (w : world) (n : N) (step : string) (errno : Z) : Prop :=
  final w n = Exited 1 /\ final w 0 = Exited 1 /\
  In (EvPerror step errno) (trace w n) /\
  count_of is_perror (trace w n) = 1%nat /\
  writes (trace w n) = [].

Example to_string_samples :
  map to_string [0; 7; 10; 99; 100; 2147483647; -1; -2147483648]
  = ["0"; "7"; "10"; "99"; "100"; "2147483647"; "-1"; "-2147483648"]%string.
Proof. reflexivity. Qed.

Example decode_samples :
  map decode [message 0; message 42; message (-5); "12"%string;
              String "1"%char (String.append newline newline); newline]
  = [Some 0; Some 42; Some (-5); None; None; None].
Proof. reflexivity. Qed.

Example configure_9600 :
  configure tty_9600 =
  mk_termios 256 0 7346 0 0
    [3; 28; 127; 21; 4; 5; 0; 0; 17; 19; 26; 0; 18; 15; 23; 22;
     0; 0; 0; 0; 0; 0; 0; 0; 0; 0; 0; 0; 0; 0; 0; 0]
    4098 4098.
Proof. reflexivity. Qed.

Example mock_first_events :
  trace mock 1 =
  [EvOpen "/dev/ttyUSB0"%string 257 3; EvTcgetattr 3 0;
   EvTcsetattr 3 0 (configure tty_9600) 0;
   EvWrite 3 (String "0"%char newline) 2 2; EvSleep 100].
Proof. reflexivity. Qed.

(* ===================================================================== *)
(** ** Bit-level reasoning on flag words *)
(* ===================================================================== *)

Lemma u32_spec (z i : Z) :
  0 <= i -> Z.testbit (u32 z) i = (i <? 32) && Z.testbit z i.
Proof.
  intros Hi. unfold u32. change 4294967296 with (2 ^ 32).
  destruct (Z.ltb_spec i 32).
  - rewrite Z.mod_pow2_bits_low by lia. reflexivity.
  - rewrite Z.mod_pow2_bits_high by lia. reflexivity.
Qed.

Lemma testbit_above (k i : Z) :
  0 <= k < 4294967296 -> 32 <= i -> Z.testbit k i = false.
Proof.
  intros Hk Hi. rewrite <- (Z.mod_small k (2 ^ 32)) by (change (2 ^ 32) with 4294967296; lia).
  apply Z.mod_pow2_bits_high. lia.
Qed.

(** A property of every bit position follows from the thirty-two positions
    of a flag word and from the positions above them. *)
Lemma each_bit (P : Z -> Prop) :
  (forall n : nat, (n < 32)%nat -> P (Z.of_nat n)) ->
  (forall i, 32 <= i -> P i) ->
  forall i, 0 <= i -> P i.
Proof.
  intros Hlow Hhigh i Hi. destruct (Z.lt_ge_cases i 32) as [Hlt | Hge].
  - rewrite <- (Z2Nat.id i) by lia. apply Hlow. lia.
  - apply Hhigh, Hge.
Qed.

Ltac unfold_flags :=
  unfold cflag_written, cflag_speed, cflag_named, cflag_named_value, cflag_value,
    iflag_cleared, iflag_named, clear_bits, set_bits,
    IGNBRK, IXON, IXANY, IXOFF, IBAUD0, CBAUD, CBAUDEX, CSIZE, CS8, CSTOPB,
    CREAD, PARENB, PARODD, CLOCAL, CRTSCTS, B115200 in *.

Ltac bit_specs i :=
  repeat first
    [ rewrite Z.land_spec | rewrite Z.lor_spec | rewrite Z.ldiff_spec
    | rewrite Z.lxor_spec | rewrite (u32_spec _ i) by lia
    | rewrite (Z.lnot_spec _ i) by lia ].

(** Equality of two flag expressions over one unknown word [c], one bit at
    a time. *)
Ltac flag_eq c :=
  unfold_flags; apply Z.bits_inj'; intros i Hi; bit_specs i;
  generalize (Z.testbit c i); intros b;
  revert i Hi; apply each_bit;
  [ intros n Hn;
    do 32 (destruct n as [|n]; [destruct b; reflexivity|]); lia
  | intros i Hi;
    repeat match goal with
      | |- context [Z.testbit (Z.pos ?p) i] =>
          rewrite (testbit_above (Z.pos p) i) by lia
      | |- context [Z.testbit 0 i] => rewrite (Z.testbit_0_l i)
      end;
    replace (i <? 32) with false by (symmetry; apply Z.ltb_ge; lia);
    destruct b; reflexivity ].

Lemma cflag_after_configure (c : Z) :
  clear_bits (clear_bits (clear_bits
    (set_bits
      (set_bits (clear_bits
        (set_bits (clear_bits
          (set_bits (clear_bits c (Z.lor CBAUD CBAUDEX)) B115200)
          (Z.lor CBAUD CBAUDEX)) B115200)
        CSIZE) CS8)
      (Z.lor CLOCAL CREAD))
    (Z.lor PARENB PARODD)) CSTOPB) CRTSCTS
  = Z.lor (Z.land c (u32 (Z.lnot cflag_written))) cflag_value.
Proof. flag_eq c. Qed.

Lemma iflag_after_configure (c : Z) :
  clear_bits (clear_bits (clear_bits c IBAUD0) IGNBRK)
             (Z.lor (Z.lor IXON IXOFF) IXANY)
  = Z.land c (u32 (Z.lnot iflag_cleared)).
Proof. flag_eq c. Qed.

(** On a [tcflag_t], masking with the converted [~m] is [Z.ldiff]. *)
Lemma land_u32_lnot (c m : Z) :
  is_u32 c -> Z.land c (u32 (Z.lnot m)) = Z.ldiff c m.
Proof.
  intros Hc. apply Z.bits_inj'. intros i Hi.
  rewrite Z.land_spec, Z.ldiff_spec, u32_spec, Z.lnot_spec by lia.
  destruct (Z.ltb_spec i 32); [reflexivity|].
  rewrite (testbit_above c i) by (unfold is_u32 in Hc; lia). reflexivity.
Qed.

(* ===================================================================== *)
(** ** The configured structure, field by field *)
(* ===================================================================== *)

Lemma configure_cflag (t : termios) :
  c_cflag (configure t) =
  Z.lor (Z.land (c_cflag t) (u32 (Z.lnot cflag_written))) cflag_value.
Proof. rewrite <- cflag_after_configure. reflexivity. Qed.

Lemma configure_iflag (t : termios) :
  c_iflag (configure t) = Z.land (c_iflag t) (u32 (Z.lnot iflag_cleared)).
Proof. rewrite <- iflag_after_configure. reflexivity. Qed.

Lemma configure_lflag (t : termios) : c_lflag (configure t) = 0.
Proof. reflexivity. Qed.

Lemma configure_oflag (t : termios) : c_oflag (configure t) = 0.
Proof. reflexivity. Qed.

Lemma configure_line (t : termios) : c_line (configure t) = c_line t.
Proof. reflexivity. Qed.

Lemma configure_cc (t : termios) :
  c_cc (configure t) = <[VTIME := 5]> (<[VMIN := 0]> (c_cc t)).
Proof. reflexivity. Qed.

Lemma configure_speeds (t : termios) :
  c_ispeed (configure t) = B115200 /\ c_ospeed (configure t) = B115200.
Proof. split; reflexivity. Qed.

(** Masking the configured control word with a constant [m]: the baseline
    contributes only where [m] meets bits the configuration does not write. *)
Lemma configure_cflag_mask (t : termios) (m : Z) :
  Z.land (u32 (Z.lnot cflag_written)) m = 0 ->
  Z.land (c_cflag (configure t)) m = Z.land cflag_value m.
Proof.
  intros Hm. rewrite configure_cflag, Z.land_lor_distr_l, <- Z.land_assoc, Hm.
  rewrite Z.land_0_r. reflexivity.
Qed.

Lemma configure_iflag_mask (t : termios) (m : Z) :
  Z.land (u32 (Z.lnot iflag_cleared)) m = 0 ->
  Z.land (c_iflag (configure t)) m = 0.
Proof.
  intros Hm. rewrite configure_iflag, <- Z.land_assoc, Hm. apply Z.land_0_r.
Qed.

Lemma configure_line_settings (t : termios) :
  line_115200_8N1_raw (configure t).
Proof.
  unfold line_115200_8N1_raw, cfgetispeed, cfgetospeed, data_bits,
    parity_enabled, stop_bits, sw_flow_control, hw_flow_control, canonical,
    echo, signals.
  rewrite configure_lflag.
  rewrite !configure_cflag_mask by reflexivity.
  rewrite !configure_iflag_mask by reflexivity.
  repeat split; reflexivity.
Qed.

(* ===================================================================== *)
(** ** The shape of a run *)
(* ===================================================================== *)

Lemma startup_cases (w : world) : startup_outcome w (startup w).
Proof.
  unfold startup. fold (the_fd w). fold (baseline w).
  destruct (Z.ltb_spec (the_fd w) 0) as [Hfd | Hfd].
  { apply StartOpenFailed. exact Hfd. }
  destruct (Z.eqb_spec (tcgetattr_ret w (the_fd w)) 0) as [Hq | Hq]; cbn [negb].
  2:{ apply StartQueryFailed. split; assumption. }
  rewrite Hq.
  destruct (Z.eqb_spec
    (tcsetattr_ret w (the_fd w) TCSANOW (configure (baseline w))) 0)
    as [Ha | Ha]; cbn [negb].
  2:{ apply StartApplyFailed. repeat split; assumption. }
  unfold startup_ok_events. cbn [app]. rewrite Ha.
  apply StartSucceeded. repeat split; assumption.
Qed.

Lemma configured_iff (w : world) : configured w <-> all_succeeded w.
Proof.
  unfold configured. split.
  - intros [fd Hfd]. destruct (startup_cases w); cbn in Hfd; try discriminate.
    assumption.
  - intros (Hfd & Hq & Ha).
    destruct (startup_cases w) as [Hf | [_ Hf] | (_ & _ & Hf) | _].
    + unfold open_failed in Hf. lia.
    + contradiction.
    + contradiction.
    + eexists. reflexivity.
Qed.

Lemma startup_configured (w : world) :
  configured w ->
  startup w = (startup_ok_events w, Looping (the_fd w) 0 0%N).
Proof.
  intros Hc. apply configured_iff in Hc. destruct Hc as (Hfd & Hq & Ha).
  destruct (startup_cases w) as [Hf | [_ Hf] | (_ & _ & Hf) | _].
  - unfold open_failed in Hf. lia.
  - contradiction.
  - contradiction.
  - reflexivity.
Qed.

Lemma startup_not_configured (w : world) :
  ~ configured w -> snd (startup w) = Exited 1.
Proof.
  intros Hn. destruct (startup_cases w) as [| | | Hok]; try reflexivity.
  exfalso. apply Hn, configured_iff, Hok.
Qed.

Lemma configured_or_exited (w : world) :
  configured w \/ snd (startup w) = Exited 1.
Proof.
  destruct (startup_cases w) as [| | | Hok]; try (right; reflexivity).
  left. apply configured_iff, Hok.
Qed.

Lemma run_0 (w : world) : run w 0 = startup w.
Proof. reflexivity. Qed.

Lemma run_succ (w : world) (n : N) : run w (N.succ n) = advance w (run w n).
Proof. unfold run. apply N.iter_succ. Qed.

(** Once exited, nothing more happens. *)
Lemma run_exited (w : world) (st : Z) :
  snd (startup w) = Exited st -> forall n, run w n = startup w.
Proof.
  intros Hst n. induction n as [|n IH] using N.peano_ind.
  - apply run_0.
  - rewrite run_succ, IH. unfold advance. rewrite Hst. cbn.
    rewrite app_nil_r. destruct (startup w) as [tr s]. cbn in *. congruence.
Qed.

Lemma wrap_int_small (z : Z) : INT_MIN <= z <= INT_MAX -> wrap_int z = z.
Proof.
  unfold wrap_int, INT_MIN, INT_MAX. intros H.
  rewrite Z.mod_small by lia. lia.
Qed.

Lemma wrap_int_range (z : Z) : INT_MIN <= wrap_int z <= INT_MAX.
Proof.
  unfold wrap_int, INT_MIN, INT_MAX.
  pose proof (Z.mod_pos_bound (z + 2147483648) 4294967296). lia.
Qed.

Lemma incr_wrap_int (z : Z) : incr (wrap_int z) = wrap_int (z + 1).
Proof.
  unfold incr, wrap_int.
  replace ((z + 2147483648) mod 4294967296 - 2147483648 + 1 + 2147483648)
    with ((z + 2147483648) mod 4294967296 + 1) by lia.
  replace (z + 1 + 2147483648) with ((z + 2147483648) + 1) by lia.
  rewrite Zplus_mod_idemp_l. reflexivity.
Qed.

(** The counter at the head of iteration [n] is [n], reduced to an [int]. *)
Lemma final_configured (w : world) :
  configured w ->
  forall n, final w n = Looping (the_fd w) (wrap_int (Z.of_N n)) n.
Proof.
  intros Hc n. unfold final. induction n as [|n IH] using N.peano_ind.
  - rewrite run_0, startup_configured by assumption. reflexivity.
  - rewrite run_succ. unfold advance. rewrite IH. cbn.
    rewrite incr_wrap_int, N2Z.inj_succ. reflexivity.
Qed.

Lemma trace_succ (w : world) (n : N) :
  configured w ->
  trace w (N.succ n) =
  trace w n ++
    [EvWrite (the_fd w) (message (wrap_int (Z.of_N n)))
       (Z.of_nat (String.length (message (wrap_int (Z.of_N n)))))
       (write_ret w n (the_fd w) (message (wrap_int (Z.of_N n))));
     EvSleep interval].
Proof.
  intros Hc. unfold trace. rewrite run_succ. unfold advance.
  pose proof (final_configured w Hc n) as Hf. unfold final in Hf.
  rewrite Hf. reflexivity.
Qed.

Lemma writes_app (a b : list event) : writes (a ++ b) = writes a ++ writes b.
Proof. unfold writes. apply omap_app. Qed.

(** A run that reached the loop: the three configuration calls, then
    nothing but the loop's writes and sleeps, the [k]-th write carrying the
    counter value [k]. *)
Lemma trace_configured (w : world) :
  configured w ->
  forall n, exists tail,
    trace w n = startup_ok_events w ++ tail /\
    Forall (loop_event (the_fd w)) tail /\
    writes tail =
      map (fun k => message (wrap_int (Z.of_nat k))) (seq 0 (N.to_nat n)).
Proof.
  intros Hc n. induction n as [|n IH] using N.peano_ind.
  - exists []. unfold trace. rewrite run_0, startup_configured by assumption.
    cbn [fst]. rewrite app_nil_r. repeat split. constructor.
  - destruct IH as (tail & Htr & Hev & Hwr).
    eexists (tail ++ [_; _]). rewrite trace_succ by assumption.
    rewrite Htr, <- app_assoc. split; [reflexivity|]. split.
    + apply Forall_app. split; [assumption|].
      repeat constructor.
    + rewrite writes_app, Hwr, N2Nat.inj_succ, seq_S, map_app. cbn.
      rewrite N_nat_Z. reflexivity.
Qed.

Lemma trace_exited (w : world) (st : Z) (n : N) :
  snd (startup w) = Exited st -> trace w n = fst (startup w).
Proof. intros H. unfold trace. rewrite (run_exited w st H). reflexivity. Qed.

Lemma final_exited (w : world) (st : Z) (n : N) :
  snd (startup w) = Exited st -> final w n = Exited st.
Proof. intros H. unfold final. rewrite (run_exited w st H). exact H. Qed.

Lemma loop_event_not_accepted (fd : Z) (tail : list event) :
  Forall (loop_event fd) tail -> omap accepted tail = [].
Proof.
  induction 1 as [|e tail He _ IH]; [reflexivity|].
  destruct e; cbn in He; try contradiction; cbn; exact IH.
Qed.

Lemma committed_configured (w : world) (n : N) :
  configured w ->
  committed (trace w n) = Some (configure (baseline w)).
Proof.
  intros Hc. destruct (trace_configured w Hc n) as (tail & Htr & Hev & _).
  unfold committed. rewrite Htr, omap_app, (loop_event_not_accepted _ _ Hev).
  reflexivity.
Qed.

Lemma writes_in_the_middle (pre post : list event) (e : event) :
  is_write e = true -> writes (pre ++ e :: post) <> [].
Proof.
  intros He. rewrite writes_app. destruct e; try discriminate. cbn.
  intros H. apply app_eq_nil in H. destruct H as [_ H]. discriminate.
Qed.

Lemma write_after_prefix (l tail pre post : list event) (e : event) :
  Forall (fun x => is_write x = false) l ->
  l ++ tail = pre ++ e :: post -> is_write e = true ->
  exists rest, pre = l ++ rest.
Proof.
  intros Hl. revert pre. induction Hl as [|a l Ha _ IH]; intros pre Heq He.
  - exists pre. reflexivity.
  - destruct pre as [|p pre]; cbn in Heq; injection Heq as Hhd Htl.
    + subst a. congruence.
    + destruct (IH pre Htl He) as [rest Hrest]. exists rest. subst. reflexivity.
Qed.

(** The configuration phase itself never writes. *)
Lemma writes_startup (w : world) : writes (fst (startup w)) = [].
Proof. destruct (startup_cases w); reflexivity. Qed.

(* ===================================================================== *)
(** ** Properties of the configuration phase *)
(* ===================================================================== *)

(** C3 (startup ordering).  In every run, whatever the system answers, each
    write in the trace comes after the three configuration calls, all of
    them successful; and when the configuration phase fails, the trace has no
    write at all and the process has exited with a non-zero status. *)
Theorem no_write_before_configuration (w : world) (n : N) :
  (forall pre e post,
      trace w n = pre ++ e :: post -> is_write e = true ->
      all_succeeded w /\ exists rest, pre = startup_ok_events w ++ rest) /\
  (~ configured w ->
      writes (trace w n) = [] /\
      exists status, final w n = Exited status /\ status <> 0).
Proof.
  split.
  - intros pre e post Htr He.
    assert (Hc : configured w).
    { destruct (configured_or_exited w) as [Hc | Hst]; [exact Hc|].
      exfalso. apply (writes_in_the_middle pre post e He).
      rewrite <- Htr, (trace_exited w 1 n Hst). apply writes_startup. }
    split; [apply configured_iff, Hc|].
    destruct (trace_configured w Hc n) as (tail & Htail & _ & _).
    rewrite Htail in Htr.
    apply (write_after_prefix (startup_ok_events w) tail pre post e);
      [repeat constructor | exact Htr | exact He].
  - intros Hn. pose proof (startup_not_configured w Hn) as Hst. split.
    + rewrite (trace_exited w 1 n Hst). apply writes_startup.
    + exists 1. split; [apply final_exited, Hst | discriminate].
Qed.

Lemma no_write_before_configuration_witness :
  ~ configured no_device /\
  writes (trace no_device 5) = [] /\
  exists status, final no_device 5 = Exited status /\ status <> 0.
Proof.
  assert (Hn : ~ configured no_device).
  { intros [fd Hfd]. vm_compute in Hfd. discriminate. }
  split; [exact Hn|].
  exact (proj2 (no_write_before_configuration no_device 5) Hn).
Defined.

(** C4 (configuration correctness).  When the configuration phase succeeds,
    the settings committed to the device (with [TCSANOW]) read: 115200 baud
    in both directions, 8 data bits, no parity, 1 stop bit, software and
    hardware flow control off, canonical mode, echo and signals off; and
    they stay in force for the rest of the run. *)
Theorem committed_line_settings (w : world) (n : N) :
  configured w ->
  exists tty,
    In (EvTcsetattr (the_fd w) TCSANOW tty 0) (trace w n) /\
    committed (trace w n) = Some tty /\
    line_115200_8N1_raw tty.
Proof.
  intros Hc. exists (configure (baseline w)). split; [|split].
  - destruct (trace_configured w Hc n) as (tail & Htr & _ & _).
    rewrite Htr. apply in_or_app. left. cbn. auto.
  - apply committed_configured, Hc.
  - apply configure_line_settings.
Qed.

Lemma mock_configured : configured mock.
Proof. exists 3. reflexivity. Defined.

Lemma committed_line_settings_witness :
  exists tty,
    In (EvTcsetattr (the_fd mock) TCSANOW tty 0) (trace mock 2) /\
    committed (trace mock 2) = Some tty /\
    line_115200_8N1_raw tty.
Proof. exact (committed_line_settings mock 2 mock_configured). Defined.

(** C8 (read parameters).  The committed settings have the minimum number of
    bytes for a read at 0 and the read timeout at 5 tenths of a second,
    that is 0.5 s. *)
Theorem committed_read_parameters (w : world) (n : N) :
  configured w ->
  length (c_cc (baseline w)) = NCCS ->
  exists tty,
    committed (trace w n) = Some tty /\
    read_min_bytes tty = Some 0 /\
    c_cc tty !! VTIME = Some 5 /\
    read_timeout_ms tty = Some 500.
Proof.
  intros Hc Hlen. exists (configure (baseline w)).
  split; [apply committed_configured, Hc|].
  unfold read_min_bytes, read_timeout_ms. rewrite configure_cc.
  assert (Hmin : <[VTIME:=5]> (<[VMIN:=0]> (c_cc (baseline w)))
                   !! VMIN = Some 0).
  { rewrite list_lookup_insert_ne by (unfold VMIN, VTIME; lia).
    apply list_lookup_insert_eq. rewrite Hlen. unfold VMIN, NCCS. lia. }
  assert (Htime : <[VTIME:=5]> (<[VMIN:=0]> (c_cc (baseline w)))
                    !! VTIME = Some 5).
  { apply list_lookup_insert_eq. rewrite length_insert, Hlen.
    unfold VTIME, NCCS. lia. }
  rewrite Hmin, Htime. repeat split.
Qed.

Lemma committed_read_parameters_witness :
  exists tty,
    committed (trace mock 1) = Some tty /\
    read_min_bytes tty = Some 0 /\
    c_cc tty !! VTIME = Some 5 /\
    read_timeout_ms tty = Some 500.
Proof.
  apply (committed_read_parameters mock 1 mock_configured). reflexivity.
Defined.

Lemma startup_query_failed (w : world) :
  query_failed w ->
  startup w =
    ([EvOpen port (Z.lor O_WRONLY O_NOCTTY) (the_fd w);
      EvTcgetattr (the_fd w) (tcgetattr_ret w (the_fd w));
      EvPerror "tcgetattr"%string (tcgetattr_errno w);
      EvClose (the_fd w)], Exited 1).
Proof.
  intros [Hfd Hq].
  destruct (startup_cases w) as [Hf | _ | (_ & Hq' & _) | (_ & Hq' & _)];
    try reflexivity; try contradiction.
  unfold open_failed in Hf. lia.
Qed.

Lemma startup_apply_failed (w : world) :
  apply_failed w ->
  startup w =
    ([EvOpen port (Z.lor O_WRONLY O_NOCTTY) (the_fd w);
      EvTcgetattr (the_fd w) 0;
      EvTcsetattr (the_fd w) TCSANOW (configure (baseline w))
        (tcsetattr_ret w (the_fd w) TCSANOW
           (configure (baseline w)));
      EvPerror "tcsetattr"%string (tcsetattr_errno w);
      EvClose (the_fd w)], Exited 1).
Proof.
  intros (Hfd & Hq & Ha).
  destruct (startup_cases w) as [Hf | (_ & Hq') | _ | (_ & _ & Ha')];
    try reflexivity; try contradiction.
  unfold open_failed in Hf. lia.
Qed.

Lemma startup_open_failed (w : world) :
  open_failed w ->
  startup w =
    ([EvOpen port (Z.lor O_WRONLY O_NOCTTY) (the_fd w);
      EvPerror "open"%string (open_errno w)], Exited 1).
Proof.
  unfold open_failed. intros Hf.
  destruct (startup_cases w) as [_ | (Hfd & _) | (Hfd & _) | (Hfd & _)];
    try reflexivity; lia.
Qed.

Lemma filter_out_self (fd : Z) : filter (fun h : Z => h <> fd) [fd] = [].
Proof.
  rewrite filter_cons. destruct (decide (fd <> fd)) as [Hne | _].
  - contradiction.
  - reflexivity.
Qed.

(** C5 (resource cleanup on failure).  When the attribute query or the
    attribute apply step fails after a successful open, the run ends with
    [close] on the descriptor that [open] returned, the process has exited,
    and no descriptor opened during the run is left open. *)
Theorem handle_closed_on_failure (w : world) (n : N) :
  query_failed w \/ apply_failed w ->
  0 <= the_fd w /\
  (exists mid,
     trace w n =
     EvOpen port (Z.lor O_WRONLY O_NOCTTY) (the_fd w) :: mid ++ [EvClose (the_fd w)]) /\
  open_handles (trace w n) [] = [] /\
  final w n = Exited 1.
Proof.
  intros [Hq | Ha].
  - pose proof (startup_query_failed w Hq) as Hs. destruct Hq as [Hfd Hq].
    assert (Hst : snd (startup w) = Exited 1) by (rewrite Hs; reflexivity).
    rewrite (trace_exited w 1 n Hst), (final_exited w 1 n Hst), Hs. cbn [fst].
    split; [exact Hfd|]. split; [|split; [|reflexivity]].
    + eexists [_; _]. reflexivity.
    + cbn [open_handles].
      replace (the_fd w <? 0) with false by (symmetry; apply Z.ltb_ge; exact Hfd).
      apply filter_out_self.
  - pose proof (startup_apply_failed w Ha) as Hs. destruct Ha as (Hfd & Hq & Ha).
    assert (Hst : snd (startup w) = Exited 1) by (rewrite Hs; reflexivity).
    rewrite (trace_exited w 1 n Hst), (final_exited w 1 n Hst), Hs. cbn [fst].
    split; [exact Hfd|]. split; [|split; [|reflexivity]].
    + eexists [_; _; _]. reflexivity.
    + cbn [open_handles].
      replace (the_fd w <? 0) with false by (symmetry; apply Z.ltb_ge; exact Hfd).
      apply filter_out_self.
Qed.

(** The remaining failure path: when [open] itself fails there is no
    descriptor to close, and none is held. *)
Lemma no_handle_when_open_fails (w : world) (n : N) :
  open_failed w -> open_handles (trace w n) [] = [] /\ final w n = Exited 1.
Proof.
  intros Ho. pose proof (startup_open_failed w Ho) as Hs.
  assert (Hst : snd (startup w) = Exited 1) by (rewrite Hs; reflexivity).
  rewrite (trace_exited w 1 n Hst), (final_exited w 1 n Hst), Hs.
  split; [|reflexivity]. cbn [fst open_handles].
  unfold open_failed in Ho.
  replace (the_fd w <? 0) with true by (symmetry; apply Z.ltb_lt; exact Ho).
  reflexivity.
Qed.

Lemma handle_closed_on_failure_witness :
  (0 <= the_fd not_a_tty /\
   (exists mid,
      trace not_a_tty 4 =
      EvOpen port (Z.lor O_WRONLY O_NOCTTY) (the_fd not_a_tty)
        :: mid ++ [EvClose (the_fd not_a_tty)]) /\
   open_handles (trace not_a_tty 4) [] = [] /\
   final not_a_tty 4 = Exited 1) /\
  (0 <= the_fd rejects_settings /\
   (exists mid,
      trace rejects_settings 4 =
      EvOpen port (Z.lor O_WRONLY O_NOCTTY) (the_fd rejects_settings)
        :: mid ++ [EvClose (the_fd rejects_settings)]) /\
   open_handles (trace rejects_settings 4) [] = [] /\
   final rejects_settings 4 = Exited 1).
Proof.
  split.
  - apply (handle_closed_on_failure not_a_tty 4). left.
    split; vm_compute; discriminate.
  - apply (handle_closed_on_failure rejects_settings 4). right.
    split; [|split]; vm_compute; [discriminate | reflexivity | discriminate].
Defined.

Lemma exited_run (w : world) (n : N) (tr : list event) :
  startup w = (tr, Exited 1) ->
  trace w n = tr /\ final w n = Exited 1 /\ final w 0 = Exited 1.
Proof.
  intros Hs.
  assert (Hst : snd (startup w) = Exited 1) by (rewrite Hs; reflexivity).
  rewrite (trace_exited w 1 n Hst), (final_exited w 1 n Hst), Hs.
  split; [reflexivity|]. split; [reflexivity | exact Hst].
Qed.

(** C6 (exit status).  No run ever reaches exit status 0.  When [open],
    [tcgetattr] or [tcsetattr] fails, the process exits with status 1
    before the first iteration, having printed exactly one diagnostic,
    which names the failing call and carries the cause the system gave
    for it, and having written nothing.  Every run is in one of these
    three cases or reaches the loop.  Conversely a run that has exited did
    so in the configuration phase, with status 1 and that diagnostic.  A
    run that reached the loop is still in the loop after any number of
    iterations, whatever the writes returned. *)
Theorem exit_status (w : world) (n : N) :
  final w n <> Exited 0 /\
  (open_failed w ->
     exits_with_diagnostic w n "open"%string (open_errno w)) /\
  (query_failed w ->
     exits_with_diagnostic w n "tcgetattr"%string (tcgetattr_errno w)) /\
  (apply_failed w ->
     exits_with_diagnostic w n "tcsetattr"%string (tcsetattr_errno w)) /\
  (open_failed w \/ query_failed w \/ apply_failed w \/ configured w) /\
  (forall status,
      final w n = Exited status ->
      status = 1 /\ final w 0 = Exited 1 /\
      ((open_failed w /\
        In (EvPerror "open"%string (open_errno w)) (trace w n)) \/
       (query_failed w /\
        In (EvPerror "tcgetattr"%string (tcgetattr_errno w)) (trace w n)) \/
       (apply_failed w /\
        In (EvPerror "tcsetattr"%string (tcsetattr_errno w)) (trace w n)))) /\
  (configured w ->
      final w n = Looping (the_fd w) (wrap_int (Z.of_N n)) n).
Proof.
  assert (Hloop : configured w ->
            final w n = Looping (the_fd w) (wrap_int (Z.of_N n)) n).
  { intros Hc. apply final_configured, Hc. }
  assert (Hexit : forall status, final w n = Exited status ->
            snd (startup w) = Exited 1 /\ status = 1).
  { intros status Hf. destruct (configured_or_exited w) as [Hc | Hst].
    - rewrite (Hloop Hc) in Hf. discriminate.
    - rewrite (final_exited w 1 n Hst) in Hf. split; congruence. }
  split; [|split; [|split; [|split; [|split; [|split; [|exact Hloop]]]]]].
  - intros Hf. destruct (Hexit 0 Hf) as [_ H]. discriminate.
  - intros Ho.
    destruct (exited_run w n _ (startup_open_failed w Ho)) as (Htr & Hf & Hf0).
    unfold exits_with_diagnostic. rewrite Htr.
    split; [exact Hf|]. split; [exact Hf0|].
    split; [cbn; auto|]. split; reflexivity.
  - intros Hq.
    destruct (exited_run w n _ (startup_query_failed w Hq)) as (Htr & Hf & Hf0).
    unfold exits_with_diagnostic. rewrite Htr.
    split; [exact Hf|]. split; [exact Hf0|].
    split; [cbn; auto|]. split; reflexivity.
  - intros Ha.
    destruct (exited_run w n _ (startup_apply_failed w Ha)) as (Htr & Hf & Hf0).
    unfold exits_with_diagnostic. rewrite Htr.
    split; [exact Hf|]. split; [exact Hf0|].
    split; [cbn; auto 6|]. split; reflexivity.
  - destruct (startup_cases w) as [Ho | Hq | Ha | Hok]; auto.
    right. right. right. apply configured_iff, Hok.
  - intros status Hf. destruct (Hexit status Hf) as [Hst ->].
    split; [reflexivity|]. split; [exact Hst|].
    rewrite (trace_exited w 1 n Hst).
    destruct (startup_cases w) as [Ho | Hq | Ha | Hok]; cbn [fst].
    + left. split; [exact Ho|]. cbn. auto.
    + right. left. split; [exact Hq|]. cbn. auto.
    + right. right. split; [exact Ha|]. cbn. auto 6.
    + discriminate.
Qed.

Lemma exit_status_witness :
  exits_with_diagnostic no_device 7 "open"%string 2 /\
  exits_with_diagnostic not_a_tty 7 "tcgetattr"%string 25 /\
  exits_with_diagnostic rejects_settings 7 "tcsetattr"%string 22 /\
  final write_fails 1000 = Looping 3 1000 1000.
Proof.
  split; [|split; [|split]].
  - apply (proj1 (proj2 (exit_status no_device 7))). reflexivity.
  - apply (proj1 (proj2 (proj2 (exit_status not_a_tty 7)))).
    split; vm_compute; discriminate.
  - apply (proj1 (proj2 (proj2 (proj2 (exit_status rejects_settings 7))))).
    split; [|split]; vm_compute; [discriminate | reflexivity | discriminate].
  - assert (Hc : configured write_fails) by (exists 3; reflexivity).
    exact (proj2 (proj2 (proj2 (proj2 (proj2 (proj2
             (exit_status write_fails 1000)))))) Hc).
Defined.

(* ===================================================================== *)
(** ** Properties of the transmission loop *)
(* ===================================================================== *)

(** The messages of a run that reached the loop, as a list. *)
Lemma writes_trace (w : world) (n : N) :
  configured w ->
  writes (trace w n) =
  map (fun k => message (wrap_int (Z.of_nat k))) (seq 0 (N.to_nat n)).
Proof.
  intros Hc. destruct (trace_configured w Hc n) as (tail & Htr & _ & Hwr).
  rewrite Htr, writes_app, Hwr. reflexivity.
Qed.

Lemma incr_below_max (count : Z) :
  INT_MIN <= count < INT_MAX -> incr count = count + 1.
Proof.
  intros H. unfold incr. apply wrap_int_small. unfold INT_MIN, INT_MAX in *. lia.
Qed.

(** C7 (one iteration).  Iteration [n] of the loop formats the counter as it
    stands, makes one [write] call with exactly those bytes, leaves the
    counter one higher for the next iteration, and sleeps 100 microseconds;
    the trace grows by that write and that sleep and by nothing else.  What
    [write] returned has no effect: two systems that answer the
    configuration calls alike lead to the same state and the same messages,
    however their writes end. *)
Theorem loop_iteration (w : world) (n : N) :
  configured w ->
  let count := wrap_int (Z.of_N n) in
  let msg := String.append (to_string count) newline in
  final w n = Looping (the_fd w) count n /\
  trace w (N.succ n) =
    trace w n ++
      [EvWrite (the_fd w) msg (Z.of_nat (String.length msg))
         (write_ret w n (the_fd w) msg);
       EvSleep 100] /\
  final w (N.succ n) = Looping (the_fd w) (incr count) (N.succ n) /\
  (count < INT_MAX -> incr count = count + 1) /\
  (forall w',
      startup w' = startup w ->
      final w' (N.succ n) = final w (N.succ n) /\
      writes (trace w' (N.succ n)) = writes (trace w (N.succ n))).
Proof.
  intros Hc count msg. split; [|split; [|split; [|split]]].
  - apply final_configured, Hc.
  - apply trace_succ, Hc.
  - rewrite (final_configured w Hc). unfold count.
    rewrite incr_wrap_int, N2Z.inj_succ. reflexivity.
  - intros Hlt. apply incr_below_max. split; [apply wrap_int_range | exact Hlt].
  - intros w' Hs.
    assert (Hc' : configured w').
    { destruct Hc as [fd Hfd]. exists fd. rewrite Hs. exact Hfd. }
    assert (Hfd : the_fd w' = the_fd w).
    { rewrite (startup_configured w Hc), (startup_configured w' Hc') in Hs.
      congruence. }
    split.
    + rewrite !final_configured, Hfd by assumption. reflexivity.
    + rewrite !writes_trace by assumption. reflexivity.
Qed.

Lemma loop_iteration_witness :
  final mock 41 = Looping 3 41 41 /\
  trace mock 42 =
    trace mock 41 ++
      [EvWrite 3 (String "4" (String "1" newline)) 3 3; EvSleep 100] /\
  final mock 42 = Looping 3 42 42 /\
  final write_fails 42 = final mock 42 /\
  writes (trace write_fails 42) = writes (trace mock 42).
Proof.
  destruct (loop_iteration mock 41 mock_configured) as (H1 & H2 & H3 & _ & H5).
  destruct (H5 write_fails eq_refl) as [H6 H7].
  split; [exact H1|]. split; [exact H2|]. split; [exact H3|].
  split; [exact H6 | exact H7].
Defined.

(* ===================================================================== *)
(** ** What the configuration changes and what it keeps *)
(* ===================================================================== *)

Lemma changed_only_written (c : Z) :
  Z.land (changed_bits c (Z.lor (Z.ldiff c cflag_written) cflag_value))
         (Z.lnot cflag_written) = 0.
Proof. unfold changed_bits. flag_eq c. Qed.

Lemma configure_cc_kept (t : termios) : cc_kept t (configure t).
Proof.
  intros i Hmin Htime. rewrite configure_cc.
  rewrite !list_lookup_insert_ne by congruence. reflexivity.
Qed.

Lemma cflag_after_set_modes (c : Z) :
  clear_bits (clear_bits (clear_bits
    (set_bits (set_bits (clear_bits c CSIZE) CS8) (Z.lor CLOCAL CREAD))
    (Z.lor PARENB PARODD)) CSTOPB) CRTSCTS
  = Z.lor (Z.land c (u32 (Z.lnot cflag_named))) cflag_named_value.
Proof. flag_eq c. Qed.

Lemma iflag_after_set_modes (c : Z) :
  clear_bits (clear_bits c IGNBRK) (Z.lor (Z.lor IXON IXOFF) IXANY)
  = Z.land c (u32 (Z.lnot iflag_named)).
Proof. flag_eq c. Qed.

Lemma changed_only_named (c : Z) :
  Z.land (changed_bits c (Z.lor (Z.ldiff c cflag_named) cflag_named_value))
         (Z.lnot cflag_named) = 0.
Proof. unfold changed_bits. flag_eq c. Qed.

(** The eleven assignments of lines 27-37, taken on their own, change
    nothing but the bits they name. *)
Lemma set_modes_frame (t : termios) :
  termios_wf t -> frame_named_only t (set_modes t).
Proof.
  intros (Hi & _ & Hcf & _). unfold frame_named_only.
  change (c_cflag (set_modes t)) with
    (clear_bits (clear_bits (clear_bits
       (set_bits (set_bits (clear_bits (c_cflag t) CSIZE) CS8) (Z.lor CLOCAL CREAD))
       (Z.lor PARENB PARODD)) CSTOPB) CRTSCTS).
  change (c_iflag (set_modes t)) with
    (clear_bits (clear_bits (c_iflag t) IGNBRK) (Z.lor (Z.lor IXON IXOFF) IXANY)).
  rewrite cflag_after_set_modes, iflag_after_set_modes.
  rewrite !land_u32_lnot by assumption.
  split; [apply changed_only_named|]. split; [reflexivity|].
  split; [|split; reflexivity].
  intros i Hmin Htime. change (c_cc (set_modes t)) with
    (<[VTIME := 5]> (<[VMIN := 0]> (c_cc t))).
  rewrite !list_lookup_insert_ne by congruence. reflexivity.
Qed.

(** The two speed calls of lines 25-26 rewrite the speed bits of [c_cflag]
    and clear the [IBAUD0] marker of [c_iflag]. *)
Lemma set_speed_flags (t : termios) :
  c_cflag (set_speed t) =
    set_bits (clear_bits
      (set_bits (clear_bits (c_cflag t) cflag_speed) B115200) cflag_speed) B115200 /\
  c_iflag (set_speed t) = clear_bits (c_iflag t) IBAUD0.
Proof. split; reflexivity. Qed.

(** C9, as amended (frame of the configuration).  On a structure as
    [tcgetattr] fills it, the configuration changes [c_cflag] only in the
    speed bits [CBAUD|CBAUDEX], which the two speed calls rewrite to
    [B115200], and in the CSIZE, CLOCAL, CREAD, PARENB, PARODD, CSTOPB and
    CRTSCTS bits; it clears in [c_iflag] the IGNBRK, IXON, IXOFF and IXANY
    bits and the C library's [IBAUD0] marker and nothing else; it keeps
    every control character other than VMIN and VTIME, and the line
    discipline; and it overwrites [c_lflag] and [c_oflag] with 0. *)
Theorem configure_frame (t : termios) :
  termios_wf t -> frame_with_speed t (configure t).
Proof.
  intros (Hi & _ & Hcf & _).
  assert (Hc : c_cflag (configure t) =
               Z.lor (Z.ldiff (c_cflag t) cflag_written) cflag_value).
  { rewrite configure_cflag, land_u32_lnot by exact Hcf. reflexivity. }
  unfold frame_with_speed. rewrite Hc. repeat split.
  - apply changed_only_written.
  - rewrite configure_iflag. apply land_u32_lnot, Hi.
  - apply configure_cc_kept.
Qed.

Lemma tty_9600_wf : termios_wf tty_9600.
Proof.
  unfold termios_wf, is_u32. cbn. repeat split; try lia.
  repeat (constructor; [lia|]). constructor.
Defined.

Lemma configure_frame_witness :
  frame_with_speed tty_9600 (configure tty_9600).
Proof. exact (configure_frame tty_9600 tty_9600_wf). Defined.

(** C9, as stated, fails: on a port at its default 9600 baud the
    configuration changes the speed bits of [c_cflag] (from the code of
    9600 to that of 115200, bits 0, 1, 2, 3 and 12), and these are not among
    the CSIZE, CLOCAL, CREAD, PARENB, PARODD, CSTOPB and CRTSCTS bits. *)
Lemma configure_frame_named_only_fails :
  termios_wf tty_9600 /\
  changed_bits (c_cflag tty_9600) (c_cflag (configure tty_9600)) = 4111 /\
  Z.land 4111 cflag_named = 0 /\
  ~ frame_named_only tty_9600 (configure tty_9600).
Proof.
  split; [exact tty_9600_wf|]. split; [reflexivity|]. split; [reflexivity|].
  intros [H _]. vm_compute in H. discriminate.
Qed.

(* ===================================================================== *)
(** ** Decimal formatting *)
(* ===================================================================== *)

Lemma digit_cases (d : Z) :
  0 <= d < 10 ->
  d = 0 \/ d = 1 \/ d = 2 \/ d = 3 \/ d = 4 \/ d = 5 \/ d = 6 \/ d = 7 \/
  d = 8 \/ d = 9.
Proof. lia. Qed.

Ltac each_digit d H :=
  destruct (digit_cases d H) as [-> | [-> | [-> | [-> | [-> | [-> | [-> | [-> | [-> | ->]]]]]]]]].

Lemma digit_char_is_digit (d : Z) : 0 <= d < 10 -> is_digit (digit_char d) = true.
Proof. intros H. each_digit d H; reflexivity. Qed.

Lemma digit_char_value (d : Z) :
  0 <= d < 10 -> Z.of_N (N_of_ascii (digit_char d)) - 48 = d.
Proof. intros H. each_digit d H; reflexivity. Qed.

Lemma digit_char_nonzero (d : Z) : 0 < d < 10 -> digit_char d <> "0"%char.
Proof.
  intros H. assert (H' : 0 <= d < 10) by lia.
  each_digit d H'; try lia; discriminate.
Qed.

Lemma append_assoc (a b c : string) :
  String.append (String.append a b) c = String.append a (String.append b c).
Proof. induction a as [|x a IH]; cbn; [reflexivity | rewrite IH; reflexivity]. Qed.

Lemma append_length (a b : string) :
  String.length (String.append a b) = (String.length a + String.length b)%nat.
Proof. induction a as [|x a IH]; cbn; [reflexivity | rewrite IH; reflexivity]. Qed.

Lemma all_digits_append (a b : string) :
  all_digits (String.append a b) = all_digits a && all_digits b.
Proof.
  induction a as [|x a IH]; cbn; [reflexivity|].
  rewrite IH, andb_assoc. reflexivity.
Qed.

Lemma digits_value_append (a b : string) (v : Z) :
  digits_value v (String.append a b) = digits_value v a ≫= fun v' => digits_value v' b.
Proof.
  revert v. induction a as [|x a IH]; intros v; cbn; [reflexivity|].
  destruct (is_digit x); [apply IH | reflexivity].
Qed.

Lemma numeral_one_digit (u : Z) :
  0 <= u < 10 -> numeral_of u (String (digit_char u) EmptyString).
Proof.
  intros H. constructor.
  - cbn. rewrite digit_char_is_digit by exact H. reflexivity.
  - intros v. cbn. rewrite digit_char_is_digit, digit_char_value by exact H.
    f_equal. lia.
  - eexists _, _. split; [reflexivity|]. intros Hpos.
    apply digit_char_nonzero. lia.
  - intros ->. reflexivity.
Qed.

Lemma numeral_snoc (u : Z) (d : string) :
  10 <= u -> numeral_of (u / 10) d ->
  numeral_of u (String.append d (String (digit_char (u mod 10)) EmptyString)).
Proof.
  intros Hu [Hd Hv (c & d' & -> & Hc) _].
  pose proof (Z.mod_pos_bound u 10 ltac:(lia)) as Hm.
  constructor.
  - rewrite all_digits_append, Hd. cbn.
    rewrite digit_char_is_digit by exact Hm. reflexivity.
  - intros v. rewrite digits_value_append, Hv. cbn.
    rewrite digit_char_is_digit, digit_char_value by exact Hm.
    f_equal. rewrite append_length. cbn [String.length].
    replace (Z.of_nat (S (String.length d' + 1)))
      with (Z.succ (Z.of_nat (S (String.length d')))) by lia.
    rewrite Z.pow_succ_r by lia.
    pose proof (Z.div_mod u 10 ltac:(lia)). lia.
  - exists c, (String.append d' (String (digit_char (u mod 10)) EmptyString)).
    split; [reflexivity|]. intros _. apply Hc.
    apply Z.div_str_pos. lia.
  - lia.
Qed.

Lemma digits_from_numeral (fuel : nat) :
  forall u acc,
    0 <= u < 2 ^ (Z.of_nat fuel + 1) ->
    exists d, digits_from (S fuel) u acc = String.append d acc /\ numeral_of u d.
Proof.
  induction fuel as [|fuel IH]; intros u acc Hu.
  - change (2 ^ (Z.of_nat 0 + 1)) with 2 in Hu.
    exists (String (digit_char u) EmptyString). split.
    + cbn. replace (u <? 10) with true by (symmetry; apply Z.ltb_lt; lia).
      rewrite Z.mod_small by lia. reflexivity.
    + apply numeral_one_digit. lia.
  - change (digits_from (S (S fuel)) u acc) with
      (if u <? 10 then String (digit_char (u mod 10)) acc
       else digits_from (S fuel) (u / 10) (String (digit_char (u mod 10)) acc)).
    destruct (Z.ltb_spec u 10) as [Hlt | Hge].
    + exists (String (digit_char u) EmptyString). split.
      * rewrite Z.mod_small by lia. reflexivity.
      * apply numeral_one_digit. lia.
    + assert (Hdiv : 0 <= u / 10 < 2 ^ (Z.of_nat fuel + 1)).
      { split; [apply Z.div_pos; lia|].
        apply Z.div_lt_upper_bound; [lia|].
        replace (Z.of_nat (S fuel) + 1) with (Z.succ (Z.of_nat fuel + 1)) in Hu by lia.
        rewrite Z.pow_succ_r in Hu by lia. lia. }
      destruct (IH (u / 10) (String (digit_char (u mod 10)) acc) Hdiv)
        as (d & Heq & Hd).
      exists (String.append d (String (digit_char (u mod 10)) EmptyString)).
      split.
      * rewrite Heq, append_assoc. reflexivity.
      * apply numeral_snoc; assumption.
Qed.

Lemma append_empty_r (a : string) : String.append a EmptyString = a.
Proof. induction a as [|x a IH]; cbn; [reflexivity | rewrite IH; reflexivity]. Qed.

Lemma decimal_numeral (u : Z) : 0 <= u -> numeral_of u (decimal u).
Proof.
  intros Hu. unfold decimal.
  destruct (digits_from_numeral (Z.to_nat (Z.log2 u)) u EmptyString) as (d & Heq & Hd).
  - rewrite Z2Nat.id by apply Z.log2_nonneg.
    destruct (Z.eq_dec u 0) as [-> | Hne]; [cbn; lia|].
    pose proof (Z.log2_spec u ltac:(lia)) as Hs.
    replace (Z.log2 u + 1) with (Z.succ (Z.log2 u)) by lia. lia.
  - rewrite Heq, append_empty_r. exact Hd.
Qed.

Lemma decimal_canonical (u : Z) : 0 <= u -> canonical_decimal (decimal u) u.
Proof.
  intros Hu. destruct (decimal_numeral u Hu) as [Hd Hv (c & d' & Heq & Hc) Hz].
  unfold canonical_decimal. split; [exact Hd|]. split.
  - unfold parse_unsigned. rewrite Heq at 1. rewrite Hv. f_equal; lia.
  - destruct (Z.eq_dec u 0) as [H0 | Hne].
    + left. apply Hz, H0.
    + right. exists c, d'. split; [exact Heq | apply Hc; lia].
Qed.

Lemma digit_not_newline (c : ascii) :
  is_digit c = true -> (c =? "010")%char = false.
Proof.
  intros H. destruct (Ascii.eqb_spec c "010"%char) as [-> | _];
    [discriminate | reflexivity].
Qed.

Lemma digit_not_minus (c : ascii) : is_digit c = true -> c <> "-"%char.
Proof. intros H ->. discriminate. Qed.

Lemma chop_newline_digits (d : string) :
  all_digits d = true -> chop_newline (String.append d newline) = Some d.
Proof.
  induction d as [|c d IH]; intros H; [reflexivity|].
  cbn in H. apply andb_true_iff in H. destruct H as [Hc Hd].
  cbn [String.append chop_newline]. rewrite (digit_not_newline c Hc), (IH Hd).
  reflexivity.
Qed.

Lemma parse_int_unsigned (c : ascii) (s : string) :
  c <> "-"%char -> parse_int (String c s) = parse_unsigned (String c s).
Proof.
  intros Hc. destruct c as [[] [] [] [] [] [] [] []]; try reflexivity.
  contradiction.
Qed.

Lemma to_string_nonneg (n : Z) : 0 <= n -> to_string n = decimal n.
Proof.
  intros H. unfold to_string.
  replace (n <? 0) with false by (symmetry; apply Z.ltb_ge; exact H).
  reflexivity.
Qed.

Lemma to_string_neg (n : Z) :
  n < 0 -> to_string n = String "-"%char (decimal (- n)).
Proof.
  intros H. unfold to_string.
  replace (n <? 0) with true by (symmetry; apply Z.ltb_lt; exact H).
  reflexivity.
Qed.

(** Reading back what [message] wrote gives the counter, for every [int]
    value and beyond. *)
Lemma decode_message (n : Z) : decode (message n) = Some n.
Proof.
  unfold decode, message. destruct (Z.lt_ge_cases n 0) as [Hneg | Hpos].
  - rewrite to_string_neg by exact Hneg.
    destruct (decimal_canonical (- n) ltac:(lia)) as (Hd & Hv & _).
    cbn [String.append chop_newline]. change ("-" =? "010")%char with false.
    rewrite chop_newline_digits by exact Hd.
    change (Z.opp <$> parse_unsigned (decimal (- n)) = Some n).
    rewrite Hv. cbn [fmap option_fmap option_map]. f_equal. lia.
  - rewrite to_string_nonneg by exact Hpos.
    destruct (decimal_numeral n Hpos) as [Hd Hv (c & d' & Heq & _) _].
    destruct (decimal_canonical n Hpos) as (_ & Hp & _).
    rewrite chop_newline_digits by exact Hd. cbn [mbind option_bind].
    rewrite Heq in Hd, Hp |- *. cbn in Hd. apply andb_true_iff in Hd.
    rewrite parse_int_unsigned by (apply digit_not_minus, Hd). exact Hp.
Qed.

Lemma message_nonneg (n : Z) :
  0 <= n -> message n = String.append (decimal n) newline.
Proof. intros Hn. unfold message. rewrite to_string_nonneg by exact Hn. reflexivity. Qed.

(** C2 (message format).  For every counter value [n >= 0] the message is a
    canonical decimal numeral of [n] (digits only, value [n], no leading
    zero) followed by one newline and nothing else; it reads back as [n]. *)
Theorem message_format (n : Z) :
  0 <= n ->
  exists d,
    message n = String.append d newline /\
    canonical_decimal d n /\
    String.length (message n) = S (String.length d) /\
    decode (message n) = Some n.
Proof.
  intros Hn. exists (decimal n). split; [|split; [|split]].
  - apply message_nonneg, Hn.
  - apply decimal_canonical, Hn.
  - rewrite message_nonneg, append_length by exact Hn. cbn. lia.
  - apply decode_message.
Qed.

Lemma message_format_witness :
  exists d,
    message 1203 = String.append d newline /\
    canonical_decimal d 1203 /\
    String.length (message 1203) = S (String.length d) /\
    decode (message 1203) = Some 1203.
Proof. apply (message_format 1203). lia. Defined.

(* ===================================================================== *)
(** ** The sequence of messages *)
(* ===================================================================== *)

Lemma transmitted_configured (w : world) (k : N) :
  configured w -> transmitted w k = Some (message (wrap_int (Z.of_N k))).
Proof.
  intros Hc. unfold transmitted. rewrite (final_configured w Hc). reflexivity.
Qed.

Lemma writes_lookup_nat (w : world) (n : N) (i : nat) (m : string) :
  configured w ->
  writes (trace w n) !! i = Some m ->
  m = message (wrap_int (Z.of_nat i)) /\ (i < N.to_nat n)%nat.
Proof.
  intros Hc Hm. rewrite (writes_trace w n Hc), list_lookup_fmap in Hm.
  destruct (seq 0 (N.to_nat n) !! i) as [j|] eqn:Hj; [|discriminate].
  apply lookup_seq in Hj. destruct Hj as [-> Hlt].
  cbn in Hm. injection Hm as <-. split; [reflexivity | exact Hlt].
Qed.

Lemma writes_lookup (w : world) (n k : N) :
  configured w -> (k < n)%N ->
  writes (trace w n) !! N.to_nat k = Some (message (wrap_int (Z.of_N k))).
Proof.
  intros Hc Hk. rewrite (writes_trace w n Hc), list_lookup_fmap.
  rewrite lookup_seq_lt by lia. cbn. rewrite N_nat_Z. reflexivity.
Qed.

(** C1, as amended (the counter sequence).  In every run whose
    configuration phase succeeds, the first three messages are "0\n", "1\n"
    and "2\n"; the [k]-th message decodes to [k] for every [k] up to
    2147483647; and for any two consecutive messages with decoded values
    [a] then [b], [b = a + 1] unless [a] is 2147483647, the largest [int]. *)
Theorem messages_count_up (w : world) :
  configured w ->
  writes (trace w 3) =
    [String "0" newline; String "1" newline; String "2" newline] /\
  (forall n k : N,
      (k < n)%N -> Z.of_N k <= INT_MAX ->
      exists m, writes (trace w n) !! N.to_nat k = Some m /\
                transmitted w k = Some m /\
                decode m = Some (Z.of_N k)) /\
  (forall (n : N) (i : nat) (ma mb : string) (a b : Z),
      writes (trace w n) !! i = Some ma ->
      writes (trace w n) !! S i = Some mb ->
      decode ma = Some a -> decode mb = Some b ->
      a <> INT_MAX -> b = a + 1).
Proof.
  intros Hc. split; [|split].
  - rewrite (writes_trace w 3 Hc). reflexivity.
  - intros n k Hk Hmax. exists (message (wrap_int (Z.of_N k))).
    split; [apply writes_lookup; assumption|].
    split; [apply transmitted_configured, Hc|].
    rewrite decode_message. f_equal. apply wrap_int_small.
    unfold INT_MIN. lia.
  - intros n i ma mb a b Ha Hb Hda Hdb Hne.
    apply (writes_lookup_nat w n i ma Hc) in Ha. destruct Ha as [-> _].
    apply (writes_lookup_nat w n (S i) mb Hc) in Hb. destruct Hb as [-> _].
    rewrite decode_message in Hda, Hdb.
    injection Hda as <-. injection Hdb as <-.
    rewrite Nat2Z.inj_succ. unfold Z.succ. rewrite <- incr_wrap_int.
    apply incr_below_max.
    pose proof (wrap_int_range (Z.of_nat i)). lia.
Qed.

Lemma messages_count_up_witness :
  writes (trace mock 3) =
    [String "0" newline; String "1" newline; String "2" newline] /\
  (exists m, writes (trace mock 12) !! N.to_nat 11 = Some m /\
             transmitted mock 11 = Some m /\ decode m = Some 11) /\
  11 = 10 + 1.
Proof.
  destruct (messages_count_up mock mock_configured) as (H1 & H2 & H3).
  split; [exact H1|]. split.
  - apply (H2 12%N 11%N); [reflexivity | unfold INT_MAX; lia].
  - apply (H3 12%N 10%nat (message 10) (message 11) 10 11);
      [reflexivity | reflexivity | reflexivity | reflexivity | discriminate].
Defined.

Lemma message_int_max :
  message 2147483647 = String.append "2147483647"%string newline.
Proof. reflexivity. Qed.

Lemma message_int_min :
  message (-2147483648) = String.append "-2147483648"%string newline.
Proof. reflexivity. Qed.

Lemma wrap_int_upper_half (z : Z) :
  2147483648 <= z < 4294967296 -> wrap_int z = z - 4294967296.
Proof.
  intros H. unfold wrap_int.
  replace (z + 2147483648) with ((z - 2147483648) + 1 * 4294967296) by lia.
  rewrite Z.mod_add, Z.mod_small by lia. lia.
Qed.

(** C1, as stated, fails: on the mock device, message number 2147483647
    decodes to 2147483647 and the next one to -2147483648, which is not the
    successor. *)
Lemma consecutive_fails_at_wrap :
  ~ (forall w : world,
        configured w ->
        forall (n : N) (i : nat) (ma mb : string) (a b : Z),
          writes (trace w n) !! i = Some ma ->
          writes (trace w n) !! S i = Some mb ->
          decode ma = Some a -> decode mb = Some b ->
          b = a + 1).
Proof.
  intros H.
  pose proof (writes_lookup mock 2147483649 2147483647 mock_configured
                ltac:(reflexivity)) as Ha.
  pose proof (writes_lookup mock 2147483649 2147483648 mock_configured
                ltac:(reflexivity)) as Hb.
  rewrite wrap_int_small in Ha by (unfold INT_MIN, INT_MAX; lia).
  rewrite wrap_int_upper_half in Hb by lia.
  change 2147483648%N with (N.succ 2147483647) in Hb at 1.
  rewrite N2Nat.inj_succ in Hb.
  specialize (H mock mock_configured _ _ _ _ _ _ Ha Hb
                (decode_message _) (decode_message _)).
  revert H. clear. intros H. discriminate H.
Qed.

Lemma minus_not_canonical (rest d : string) (v : Z) :
  String "-"%char rest = String.append d newline -> ~ canonical_decimal d v.
Proof.
  intros Heq (Hd & Hv & _). destruct d as [|c d].
  - discriminate Hv.
  - cbn in Heq. injection Heq as <- _. discriminate Hd.
Qed.

(** C10 (wrap-around of the counter).  The counter is a 32-bit [int]: after
    the iteration that transmits 2147483647 it holds -2147483648, not 0;
    the messages of the next 2^31 iterations begin with a minus sign and are
    no decimal numerals; the messages up to and including that of
    2147483647 are canonical numerals of the iteration number; and two
    consecutive messages differ by one exactly when the first is not
    2147483647. *)
Theorem counter_wraps (w : world) :
  configured w ->
  incr INT_MAX = INT_MIN /\
  final w 2147483648 = Looping (the_fd w) (-2147483648) 2147483648 /\
  transmitted w 2147483647 = Some (String.append "2147483647"%string newline) /\
  transmitted w 2147483648 = Some (String.append "-2147483648"%string newline) /\
  (forall k : N,
      (2147483648 <= k < 4294967296)%N ->
      (exists rest, transmitted w k = Some (String "-"%char rest)) /\
      ~ (exists d v, transmitted w k = Some (String.append d newline) /\
                     canonical_decimal d v)) /\
  (forall k : N,
      (k <= 2147483647)%N ->
      exists d, transmitted w k = Some (String.append d newline) /\
                canonical_decimal d (Z.of_N k)) /\
  (forall (k : N) (ma mb : string) (a b : Z),
      transmitted w k = Some ma -> transmitted w (N.succ k) = Some mb ->
      decode ma = Some a -> decode mb = Some b ->
      (b = a + 1 <-> a <> INT_MAX)).
Proof.
  intros Hc.
  assert (Hneg : forall k : N, (2147483648 <= k < 4294967296)%N ->
            exists rest, transmitted w k = Some (String "-"%char rest)).
  { intros k Hk. rewrite (transmitted_configured w k Hc).
    rewrite wrap_int_upper_half by lia. unfold message.
    rewrite to_string_neg by lia. eexists. reflexivity. }
  split; [reflexivity|]. split; [|split; [|split; [|split; [|split]]]].
  - rewrite (final_configured w Hc). reflexivity.
  - rewrite (transmitted_configured w _ Hc). reflexivity.
  - rewrite (transmitted_configured w _ Hc). reflexivity.
  - intros k Hk. split; [apply Hneg, Hk|].
    intros (d & v & Hd & Hcan). destruct (Hneg k Hk) as [rest Hrest].
    rewrite Hrest in Hd. injection Hd as Hd.
    exact (minus_not_canonical rest d v Hd Hcan).
  - intros k Hk. rewrite (transmitted_configured w k Hc).
    rewrite wrap_int_small by (unfold INT_MIN, INT_MAX; lia).
    exists (decimal (Z.of_N k)). rewrite message_nonneg by lia.
    split; [reflexivity | apply decimal_canonical; lia].
  - intros k ma mb a b Ha Hb Hda Hdb.
    rewrite (transmitted_configured w k Hc) in Ha.
    rewrite (transmitted_configured w (N.succ k) Hc) in Hb.
    injection Ha as <-. injection Hb as <-.
    rewrite decode_message in Hda, Hdb. injection Hda as <-. injection Hdb as <-.
    rewrite N2Z.inj_succ. unfold Z.succ. rewrite <- incr_wrap_int.
    pose proof (wrap_int_range (Z.of_N k)) as Hr. split.
    + intros Heq Hmax. rewrite Hmax in Heq. vm_compute in Heq. discriminate Heq.
    + intros Hne. apply incr_below_max. lia.
Qed.

Lemma counter_wraps_witness :
  final mock 2147483648 = Looping 3 (-2147483648) 2147483648 /\
  transmitted mock 2147483647 = Some (String.append "2147483647"%string newline) /\
  transmitted mock 2147483648 = Some (String.append "-2147483648"%string newline) /\
  (exists rest, transmitted mock 3000000000 = Some (String "-"%char rest)).
Proof.
  destruct (counter_wraps mock mock_configured) as (_ & H1 & H2 & H3 & H4 & _).
  split; [exact H1|]. split; [exact H2|]. split; [exact H3|].
  apply (H4 3000000000%N). split; [discriminate | reflexivity].
Defined.

(* ===================================================================== *)
(** ** Further properties of a run *)
(* ===================================================================== *)

Lemma count_of_app (p : event -> bool) (a b : list event) :
  count_of p (a ++ b) = (count_of p a + count_of p b)%nat.
Proof. induction a as [|e a IH]; cbn; [reflexivity | rewrite IH; lia]. Qed.

Lemma count_of_loop (p : event -> bool) (fd : Z) (tail : list event) :
  (forall fd' buf c r, p (EvWrite fd' buf c r) = false) ->
  (forall us, p (EvSleep us) = false) ->
  Forall (loop_event fd) tail -> count_of p tail = 0%nat.
Proof.
  intros Hw Hs. induction 1 as [|e tail He _ IH]; [reflexivity|].
  destruct e; cbn in He; try contradiction; cbn [count_of].
  - rewrite Hw, IH. reflexivity.
  - rewrite Hs, IH. reflexivity.
Qed.

Lemma open_handles_app (a b : list event) (held : list Z) :
  open_handles (a ++ b) held = open_handles b (open_handles a held).
Proof.
  revert held. induction a as [|e a IH]; intros held; [reflexivity|].
  destruct e; cbn; apply IH.
Qed.

Lemma open_handles_loop (fd : Z) (tail : list event) (held : list Z) :
  Forall (loop_event fd) tail -> open_handles tail held = held.
Proof.
  induction 1 as [|e tail He _ IH]; [reflexivity|].
  destruct e; cbn in He; try contradiction; cbn; exact IH.
Qed.

Lemma trace_nat (w : world) (n : N) : trace w n = trace w (N.of_nat (N.to_nat n)).
Proof. rewrite N2Nat.id. reflexivity. Qed.

Lemma trace_iterations (w : world) (n : nat) :
  configured w ->
  trace w (N.of_nat n) =
    startup_ok_events w ++ concat (map (iteration_events w) (seq 0 n)).
Proof.
  intros Hc. induction n as [|n IH].
  - unfold trace. change (N.of_nat 0) with 0%N.
    rewrite run_0, startup_configured by exact Hc. cbn [fst seq map concat].
    rewrite app_nil_r. reflexivity.
  - rewrite Nat2N.inj_succ, trace_succ, IH by exact Hc.
    rewrite seq_S, map_app, concat_app, <- app_assoc. cbn [map concat].
    rewrite app_nil_r, nat_N_Z. reflexivity.
Qed.

(** X1 (the exact trace).  A run that reached the loop consists of the
    three configuration calls followed, for each iteration in turn, by one
    write of that iteration's message and one sleep of 100 microseconds and
    nothing else: after [n] iterations the trace has [3 + 2 n] events, [n]
    of them writes and [n] sleeps. *)
Theorem trace_exact (w : world) (n : nat) :
  configured w ->
  trace w (N.of_nat n) =
    startup_ok_events w ++ concat (map (iteration_events w) (seq 0 n)) /\
  length (trace w (N.of_nat n)) = (3 + 2 * n)%nat /\
  count_of is_write (trace w (N.of_nat n)) = n /\
  count_of is_sleep (trace w (N.of_nat n)) = n.
Proof.
  intros Hc. pose proof (trace_iterations w n Hc) as Htr.
  split; [exact Htr|]. rewrite Htr. clear Htr.
  rewrite length_app, !count_of_app. cbn [startup_ok_events length count_of
    is_write is_sleep].
  induction n as [|n IH]; [repeat split|].
  rewrite seq_S, map_app, concat_app, length_app, !count_of_app.
  cbn [map concat app iteration_events length count_of is_write is_sleep].
  destruct IH as (IH1 & IH2 & IH3). repeat split; lia.
Qed.

Lemma trace_exact_witness :
  trace mock (N.of_nat 4) =
    startup_ok_events mock ++ concat (map (iteration_events mock) (seq 0 4)) /\
  length (trace mock (N.of_nat 4)) = (3 + 2 * 4)%nat /\
  count_of is_write (trace mock (N.of_nat 4)) = 4%nat /\
  count_of is_sleep (trace mock (N.of_nat 4)) = 4%nat.
Proof. exact (trace_exact mock 4 mock_configured). Defined.

(** X2 (the descriptor is never released).  In a run that reached the
    loop the program never calls [close]: after any number of iterations
    the descriptor that [open] returned is still held.  The [close] and the
    [return 0] after the loop are never executed. *)
Theorem descriptor_stays_open (w : world) (n : N) :
  configured w ->
  count_of is_close (trace w n) = 0%nat /\
  open_handles (trace w n) [] = [the_fd w] /\
  exists count, final w n = Looping (the_fd w) count n.
Proof.
  intros Hc. destruct (trace_configured w Hc n) as (tail & Htr & Hev & _).
  rewrite Htr, count_of_app, open_handles_app.
  rewrite (count_of_loop is_close _ tail) by (try exact Hev; reflexivity).
  rewrite (open_handles_loop _ tail _ Hev).
  apply configured_iff in Hc as Hok. destruct Hok as (Hfd & _).
  split; [reflexivity|]. split.
  - cbn [startup_ok_events open_handles].
    replace (the_fd w <? 0) with false by (symmetry; apply Z.ltb_ge; exact Hfd).
    reflexivity.
  - eexists. apply final_configured, Hc.
Qed.

Lemma descriptor_stays_open_witness :
  count_of is_close (trace mock 9) = 0%nat /\
  open_handles (trace mock 9) [] = [the_fd mock] /\
  exists count, final mock 9 = Looping (the_fd mock) count 9.
Proof. exact (descriptor_stays_open mock 9 mock_configured). Defined.

Lemma call_counts (w : world) (n : N) :
  count_of is_open (trace w n) = 1%nat /\
  (count_of is_apply (trace w n) <= count_of is_query (trace w n) <= 1)%nat /\
  (configured w ->
     count_of is_query (trace w n) = 1%nat /\
     count_of is_apply (trace w n) = 1%nat /\
     count_of is_perror (trace w n) = 0%nat) /\
  (~ configured w ->
     count_of is_perror (trace w n) = 1%nat /\
     (length (trace w n) <= 5)%nat).
Proof.
  destruct (configured_or_exited w) as [Hc | Hst].
  - destruct (trace_configured w Hc n) as (tail & Htr & Hev & _).
    rewrite Htr, !count_of_app.
    rewrite (count_of_loop is_open _ tail), (count_of_loop is_query _ tail),
      (count_of_loop is_apply _ tail), (count_of_loop is_perror _ tail)
      by (try exact Hev; reflexivity).
    cbn. split; [reflexivity|]. split; [lia|]. split.
    + intros _. repeat split.
    + intros Hn. contradiction.
  - assert (Hn : ~ configured w).
    { intros [fd Hfd]. rewrite Hst in Hfd. discriminate. }
    rewrite (trace_exited w 1 n Hst).
    destruct (startup_cases w) as [| | | Hok]; cbn;
      try (split; [reflexivity|]; split; [lia|]; split;
           [intros Hc; contradiction | intros _; split; [reflexivity | lia]]).
    exfalso. apply Hn, configured_iff, Hok.
Qed.

(** An event that is no write and no sleep lies in the part of the trace
    that the configuration phase produced. *)
Lemma located (p : event -> bool) (fd : Z) (l tail pre post : list event)
    (e : event) :
  (forall fd' buf c r, p (EvWrite fd' buf c r) = false) ->
  (forall us, p (EvSleep us) = false) ->
  Forall (loop_event fd) tail ->
  l ++ tail = pre ++ e :: post -> p e = true ->
  exists rest, l = pre ++ e :: rest.
Proof.
  intros Hw Hs Hev. revert pre. induction l as [|a l IH]; intros pre Heq He.
  - exfalso. cbn in Heq. rewrite Heq in Hev.
    apply Forall_app in Hev. destruct Hev as [_ Hev].
    apply Forall_cons in Hev. destruct Hev as [Hev _].
    destruct e; cbn in Hev; try contradiction.
    + rewrite Hw in He. discriminate.
    + rewrite Hs in He. discriminate.
  - destruct pre as [|b pre]; cbn in Heq; injection Heq as Hhd Htl.
    + subst a. exists l. reflexivity.
    + subst b. destruct (IH pre Htl He) as [rest ->]. exists rest. reflexivity.
Qed.

Lemma located_in_startup (p : event -> bool) (w : world) (n : N)
    (pre post : list event) (e : event) :
  (forall fd' buf c r, p (EvWrite fd' buf c r) = false) ->
  (forall us, p (EvSleep us) = false) ->
  trace w n = pre ++ e :: post -> p e = true ->
  exists rest, fst (startup w) = pre ++ e :: rest.
Proof.
  intros Hw Hs Htr He. destruct (configured_or_exited w) as [Hc | Hst].
  - destruct (trace_configured w Hc n) as (tail & Htail & Hev & _).
    rewrite (startup_configured w Hc). cbn [fst].
    rewrite Htail in Htr. exact (located p _ _ tail pre post e Hw Hs Hev Htr He).
  - rewrite (trace_exited w 1 n Hst) in Htr. exists post. exact Htr.
Qed.

Lemma split_lookup (l pre rest : list event) (e : event) :
  l = pre ++ e :: rest ->
  l !! length pre = Some e /\ pre = take (length pre) l.
Proof.
  intros ->. split.
  - apply list_lookup_middle. reflexivity.
  - rewrite take_app_length. reflexivity.
Qed.

Ltac at_positions k Hlook Htake He n :=
  lazymatch n with
  | O => cbn in Hlook; try discriminate Hlook
  | S ?m =>
      destruct k as [|k];
      [ cbn in Hlook;
        first [ discriminate Hlook
              | injection Hlook as <-; cbn in He;
                try discriminate He; cbn in Htake ]
      | at_positions k Hlook Htake He m ]
  end.

Ltac find_position Hl He :=
  apply split_lookup in Hl;
  let Hlook := fresh "Hlook" in
  let Htake := fresh "Htake" in
  let k := fresh "k" in
  destruct Hl as [Hlook Htake];
  match type of Htake with
  | ?pre = take (length ?pre) _ =>
      generalize dependent (length pre); intros k Hlook Htake
  end;
  at_positions k Hlook Htake He 5%nat.

(** X3 (no retries).  Whatever the system answers, a run calls [open]
    exactly once, [tcgetattr] at most once and [tcsetattr] at most once and
    never without a [tcgetattr] before it: what precedes a [tcsetattr] in
    the trace is the successful [open] and the successful [tcgetattr] on
    its descriptor, and what precedes a [tcgetattr] is the successful
    [open].  The run prints no diagnostic when the configuration phase
    succeeds, and exactly one when it fails, in which case the whole run has
    at most five events. *)
Theorem calls_at_most_once (w : world) (n : N) :
  count_of is_open (trace w n) = 1%nat /\
  (count_of is_apply (trace w n) <= count_of is_query (trace w n) <= 1)%nat /\
  (configured w ->
     count_of is_query (trace w n) = 1%nat /\
     count_of is_apply (trace w n) = 1%nat /\
     count_of is_perror (trace w n) = 0%nat) /\
  (~ configured w ->
     count_of is_perror (trace w n) = 1%nat /\
     (length (trace w n) <= 5)%nat) /\
  (forall pre e post,
      trace w n = pre ++ e :: post -> is_apply e = true ->
      0 <= the_fd w /\
      pre = [EvOpen port (Z.lor O_WRONLY O_NOCTTY) (the_fd w);
             EvTcgetattr (the_fd w) 0]) /\
  (forall pre e post,
      trace w n = pre ++ e :: post -> is_query e = true ->
      0 <= the_fd w /\
      pre = [EvOpen port (Z.lor O_WRONLY O_NOCTTY) (the_fd w)]).
Proof.
  destruct (call_counts w n) as (H1 & H2 & H3 & H4).
  split; [exact H1|]. split; [exact H2|]. split; [exact H3|].
  split; [exact H4|]. split.
  - intros pre e post Htr He.
    destruct (located_in_startup is_apply w n pre post e
                ltac:(reflexivity) ltac:(reflexivity) Htr He) as [rest Hl].
    destruct (startup_cases w) as [Ho | (Hfd & _) | (Hfd & _) | (Hfd & _)];
      cbn [fst startup_ok_events] in Hl; find_position Hl He;
      (split; [exact Hfd | assumption]).
  - intros pre e post Htr He.
    destruct (located_in_startup is_query w n pre post e
                ltac:(reflexivity) ltac:(reflexivity) Htr He) as [rest Hl].
    destruct (startup_cases w) as [Ho | (Hfd & _) | (Hfd & _) | (Hfd & _)];
      cbn [fst startup_ok_events] in Hl; find_position Hl He;
      (split; [exact Hfd | assumption]).
Qed.

Lemma calls_at_most_once_witness :
  (count_of is_query (trace mock 6) = 1%nat /\
   count_of is_apply (trace mock 6) = 1%nat /\
   count_of is_perror (trace mock 6) = 0%nat) /\
  (count_of is_perror (trace not_a_tty 6) = 1%nat /\
   (length (trace not_a_tty 6) <= 5)%nat) /\
  (0 <= the_fd mock /\
   [EvOpen port 257 3; EvTcgetattr 3 0] =
   [EvOpen port (Z.lor O_WRONLY O_NOCTTY) (the_fd mock);
    EvTcgetattr (the_fd mock) 0]).
Proof.
  destruct (calls_at_most_once mock 6) as (_ & _ & H3 & _ & H5 & _).
  destruct (calls_at_most_once not_a_tty 6) as (_ & _ & _ & H4 & _).
  split; [exact (H3 mock_configured)|]. split.
  - apply H4. intros [fd Hfd]. vm_compute in Hfd. discriminate.
  - apply (H5 [EvOpen port 257 3; EvTcgetattr 3 0]
              (EvTcsetattr 3 0 (configure tty_9600) 0)
              (concat (map (iteration_events mock) (seq 0 6))));
      reflexivity.
Defined.

(* ===================================================================== *)
(** ** Further properties of the messages *)
(* ===================================================================== *)

Lemma pow10_pos (k : nat) : 0 < 10 ^ Z.of_nat k.
Proof. apply Z.pow_pos_nonneg; lia. Qed.

Lemma pow10_succ (k : nat) : 10 ^ Z.of_nat (S k) = 10 * 10 ^ Z.of_nat k.
Proof. rewrite Nat2Z.inj_succ, Z.pow_succ_r by lia. reflexivity. Qed.

(** The number of digits produced, from the decade of the value. *)
Lemma digits_from_length (fuel : nat) :
  forall (u : Z) (acc : string) (k : nat),
    0 <= u < 2 ^ (Z.of_nat fuel + 1) ->
    u < 10 ^ Z.of_nat (S k) ->
    (k = 0%nat \/ 10 ^ Z.of_nat k <= u) ->
    String.length (digits_from (S fuel) u acc) = (S k + String.length acc)%nat.
Proof.
  induction fuel as [|fuel IH]; intros u acc k Hu Hhi Hlo.
  - change (2 ^ (Z.of_nat 0 + 1)) with 2 in Hu.
    assert (k = 0%nat) as ->.
    { destruct Hlo as [Hk | Hk]; [exact Hk|]. destruct k; [reflexivity|].
      rewrite pow10_succ in Hk. pose proof (pow10_pos k). lia. }
    cbn. replace (u <? 10) with true by (symmetry; apply Z.ltb_lt; lia).
    reflexivity.
  - change (digits_from (S (S fuel)) u acc) with
      (if u <? 10 then String (digit_char (u mod 10)) acc
       else digits_from (S fuel) (u / 10) (String (digit_char (u mod 10)) acc)).
    destruct (Z.ltb_spec u 10) as [Hlt | Hge].
    + assert (k = 0%nat) as ->.
      { destruct Hlo as [Hk | Hk]; [exact Hk|]. destruct k; [reflexivity|].
        rewrite pow10_succ in Hk. pose proof (pow10_pos k). lia. }
      reflexivity.
    + destruct k as [|k].
      { change (10 ^ Z.of_nat 1) with 10 in Hhi. lia. }
      assert (Hk : 10 ^ Z.of_nat (S k) <= u) by (destruct Hlo; [discriminate | assumption]).
      rewrite (pow10_succ (S k)) in Hhi. rewrite pow10_succ in Hk.
      rewrite (IH (u / 10) _ k).
      * cbn [String.length]. lia.
      * split; [apply Z.div_pos; lia|].
        apply Z.div_lt_upper_bound; [lia|].
        replace (Z.of_nat (S fuel) + 1) with (Z.succ (Z.of_nat fuel + 1)) in Hu by lia.
        rewrite Z.pow_succ_r in Hu by lia. lia.
      * apply Z.div_lt_upper_bound; lia.
      * right. apply Z.div_le_lower_bound; lia.
Qed.

Lemma decimal_length (u : Z) (k : nat) :
  0 <= u -> u < 10 ^ Z.of_nat (S k) -> (k = 0%nat \/ 10 ^ Z.of_nat k <= u) ->
  String.length (decimal u) = S k.
Proof.
  intros Hu Hhi Hlo. unfold decimal.
  rewrite (digits_from_length _ u EmptyString k); [cbn; lia | | exact Hhi | exact Hlo].
  rewrite Z2Nat.id by apply Z.log2_nonneg.
  destruct (Z.eq_dec u 0) as [-> | Hne]; [cbn; lia|].
  pose proof (Z.log2_spec u ltac:(lia)) as Hs.
  replace (Z.log2 u + 1) with (Z.succ (Z.log2 u)) by lia. lia.
Qed.

(** Every non-negative value lies in one decade. *)
Lemma decade (u : Z) (b : nat) :
  0 <= u < 10 ^ Z.of_nat (S b) ->
  exists k : nat, (k <= b)%nat /\ u < 10 ^ Z.of_nat (S k) /\
                  (k = 0%nat \/ 10 ^ Z.of_nat k <= u).
Proof.
  induction b as [|b IH]; intros Hu.
  - exists 0%nat. repeat split; [lia | lia | left; reflexivity].
  - destruct (Z.lt_ge_cases u (10 ^ Z.of_nat (S b))) as [Hlt | Hge].
    + destruct (IH ltac:(lia)) as (k & Hk & Hhi & Hlo).
      exists k. repeat split; [lia | exact Hhi | exact Hlo].
    + exists (S b). repeat split; [lia | lia | right; exact Hge].
Qed.

Lemma message_length_int (n : Z) :
  INT_MIN <= n <= INT_MAX -> (2 <= String.length (message n) <= 12)%nat.
Proof.
  unfold INT_MIN, INT_MAX. intros Hn. unfold message. rewrite append_length.
  cbn [newline String.length].
  destruct (Z.lt_ge_cases n 0) as [Hneg | Hpos].
  - rewrite to_string_neg by exact Hneg. cbn [String.length].
    destruct (decade (- n) 9) as (k & Hk & Hhi & Hlo).
    { change (10 ^ Z.of_nat 10) with 10000000000. lia. }
    rewrite (decimal_length (- n) k) by (try assumption; lia). lia.
  - rewrite to_string_nonneg by exact Hpos.
    destruct (decade n 9) as (k & Hk & Hhi & Hlo).
    { change (10 ^ Z.of_nat 10) with 10000000000. lia. }
    rewrite (decimal_length n k) by (try assumption; lia). lia.
Qed.

(** X4 (message length).  The message of a counter value [n] with
    [10^k <= n < 10^(k+1)] has [k + 2] bytes, [k + 1] digits and the
    newline; that of a value below ten has two.  For every [int] value,
    negative ones included, the message has between 2 and 12 bytes. *)
Theorem message_length (n : Z) :
  (forall k : nat,
      10 ^ Z.of_nat k <= n < 10 ^ Z.of_nat (S k) ->
      String.length (message n) = (k + 2)%nat) /\
  (0 <= n < 10 -> String.length (message n) = 2%nat) /\
  (INT_MIN <= n <= INT_MAX -> (2 <= String.length (message n) <= 12)%nat).
Proof.
  split; [|split].
  - intros k [Hlo Hhi]. pose proof (pow10_pos k) as Hp.
    rewrite message_nonneg, append_length by lia.
    rewrite (decimal_length n k) by (try right; lia). cbn. lia.
  - intros Hn. rewrite message_nonneg, append_length by lia.
    rewrite (decimal_length n 0) by (try left; cbn; lia). reflexivity.
  - apply message_length_int.
Qed.

Lemma message_length_witness :
  String.length (message 4711) = (3 + 2)%nat /\
  String.length (message 7) = 2%nat /\
  (2 <= String.length (message (-2147483648)) <= 12)%nat.
Proof.
  destruct (message_length 4711) as (H1 & _ & _).
  destruct (message_length 7) as (_ & H2 & _).
  destruct (message_length (-2147483648)) as (_ & _ & H3).
  split; [|split].
  - apply (H1 3%nat). cbn. lia.
  - apply H2. lia.
  - apply H3. unfold INT_MIN, INT_MAX. lia.
Defined.

(** X5 (round trip).  Reading back the message of any counter value gives
    that value, negative values included; so the messages of two different
    counter values differ, and a message is never empty. *)
Theorem message_round_trip (a b : Z) :
  decode (message a) = Some a /\
  (message a = message b -> a = b) /\
  message a <> EmptyString.
Proof.
  split; [apply decode_message|]. split.
  - intros Heq. pose proof (decode_message a) as Ha.
    rewrite Heq, decode_message in Ha. congruence.
  - intros Heq. pose proof (decode_message a) as Ha.
    rewrite Heq in Ha. discriminate Ha.
Qed.

Lemma message_round_trip_witness :
  decode (message (-17)) = Some (-17) /\ 3 = 3.
Proof.
  destruct (message_round_trip 3 3) as (_ & H & _).
  split; [exact (proj1 (message_round_trip (-17) 0)) | exact (H eq_refl)].
Defined.

(** X6 (what is written).  Whatever the system answers, every write of a
    run goes to the descriptor that [open] returned, which is not negative,
    and hands over exactly one whole message of an [int] value: the byte
    count passed is the length of the message, between 2 and 12. *)
Theorem writes_are_whole_messages (w : world) (n : N)
    (fd : Z) (buf : string) (count ret : Z) :
  In (EvWrite fd buf count ret) (trace w n) ->
  fd = the_fd w /\ 0 <= fd /\
  count = Z.of_nat (String.length buf) /\ 2 <= count <= 12 /\
  exists c, INT_MIN <= c <= INT_MAX /\ buf = message c /\ decode buf = Some c.
Proof.
  intros Hin.
  assert (Hc : configured w).
  { destruct (configured_or_exited w) as [Hc | Hst]; [exact Hc|]. exfalso.
    rewrite (trace_exited w 1 n Hst) in Hin.
    destruct (startup_cases w); cbn in Hin;
      repeat (destruct Hin as [Hin | Hin]; [discriminate Hin|]); exact Hin. }
  rewrite (trace_nat w n) in Hin.
  rewrite (trace_iterations w (N.to_nat n) Hc) in Hin.
  apply configured_iff in Hc as Hok. destruct Hok as (Hfd & _).
  apply in_app_or in Hin. destruct Hin as [Hin | Hin].
  { cbn in Hin. repeat (destruct Hin as [Hin | Hin]; [discriminate Hin|]).
    contradiction. }
  apply in_concat in Hin. destruct Hin as (evs & Hevs & Hin).
  apply in_map_iff in Hevs. destruct Hevs as (k & <- & _).
  cbn in Hin. destruct Hin as [Hin | [Hin | []]]; [|discriminate Hin].
  injection Hin as <- <- <- _.
  pose proof (wrap_int_range (Z.of_nat k)) as Hr.
  pose proof (message_length_int (wrap_int (Z.of_nat k)) Hr) as Hlen.
  split; [reflexivity|]. split; [exact Hfd|]. split; [reflexivity|].
  split; [lia|]. exists (wrap_int (Z.of_nat k)).
  split; [exact Hr|]. split; [reflexivity | apply decode_message].
Qed.

Lemma writes_are_whole_messages_witness :
  3 = the_fd mock /\ 0 <= 3 /\
  2 = Z.of_nat (String.length (String "0" newline)) /\ 2 <= 2 <= 12 /\
  exists c, INT_MIN <= c <= INT_MAX /\ String "0" newline = message c /\
            decode (String "0" newline) = Some c.
Proof.
  apply (writes_are_whole_messages mock 1 3 (String "0" newline) 2 2).
  cbn. auto 6.
Defined.

Lemma has_newline_digits (d : string) : all_digits d = true -> has_newline d = false.
Proof.
  induction d as [|c d IH]; intros H; [reflexivity|].
  cbn in H. apply andb_true_iff in H. destruct H as [Hc Hd].
  cbn. rewrite (digit_not_newline c Hc), (IH Hd). reflexivity.
Qed.

Lemma has_newline_to_string (n : Z) : has_newline (to_string n) = false.
Proof.
  destruct (Z.lt_ge_cases n 0) as [Hneg | Hpos].
  - rewrite to_string_neg by exact Hneg. cbn.
    apply has_newline_digits. apply (decimal_numeral (- n)). lia.
  - rewrite to_string_nonneg by exact Hpos.
    apply has_newline_digits. apply (decimal_numeral n Hpos).
Qed.

Lemma records_line (d s : string) :
  has_newline d = false ->
  records (String.append d (String.append newline s)) =
  (d :: fst (records s), snd (records s)).
Proof.
  induction d as [|c d IH]; intros Hd.
  - cbn. destruct (records s). reflexivity.
  - cbn in Hd. apply orb_false_iff in Hd. destruct Hd as [Hc Hd].
    cbn [String.append records]. rewrite (IH Hd), Hc. reflexivity.
Qed.

Lemma records_messages (cs : list Z) :
  records (fold_right String.append EmptyString (map message cs)) =
  (map to_string cs, EmptyString).
Proof.
  induction cs as [|c cs IH]; [reflexivity|].
  cbn [map fold_right]. unfold message at 1.
  rewrite append_assoc, records_line by apply has_newline_to_string.
  rewrite IH. reflexivity.
Qed.

(** X7 (framing of the byte stream).  The bytes a run hands to the device,
    write after write, cut at the newlines, are exactly the decimal texts
    of the counter values 0, 1, 2, ... in order (reduced to an [int]), one
    per iteration, with nothing left over after the last newline. *)
Theorem stream_records (w : world) (n : nat) :
  configured w ->
  records (stream (trace w (N.of_nat n))) =
  (map (fun k => to_string (wrap_int (Z.of_nat k))) (seq 0 n), EmptyString).
Proof.
  intros Hc. unfold stream. rewrite (writes_trace w _ Hc), Nat2N.id.
  rewrite <- (map_map (fun k => wrap_int (Z.of_nat k)) message), records_messages.
  rewrite map_map. reflexivity.
Qed.

Lemma stream_records_witness :
  records (stream (trace mock (N.of_nat 3))) =
  (["0"; "1"; "2"]%string, EmptyString).
Proof. exact (stream_records mock 3 mock_configured). Defined.

Lemma wrap_int_period (z : Z) : wrap_int (z + 4294967296) = wrap_int z.
Proof.
  unfold wrap_int.
  replace (z + 4294967296 + 2147483648) with (z + 2147483648 + 1 * 4294967296) by lia.
  rewrite Z.mod_add by lia. reflexivity.
Qed.

(** X8 (the counter stays an [int] and comes round).  At every iteration
    the counter lies between -2147483648 and 2147483647, and iteration
    [k + 2^32] transmits the same message as iteration [k]. *)
Theorem counter_period (w : world) (k : N) :
  configured w ->
  (exists count, final w k = Looping (the_fd w) count k /\
                 INT_MIN <= count <= INT_MAX) /\
  transmitted w (k + 4294967296) = transmitted w k.
Proof.
  intros Hc. split.
  - exists (wrap_int (Z.of_N k)).
    split; [apply final_configured, Hc | apply wrap_int_range].
  - rewrite !transmitted_configured by exact Hc.
    rewrite N2Z.inj_add. change (Z.of_N 4294967296) with 4294967296.
    rewrite wrap_int_period. reflexivity.
Qed.

Lemma counter_period_witness :
  (exists count, final mock 5 = Looping (the_fd mock) count 5 /\
                 INT_MIN <= count <= INT_MAX) /\
  transmitted mock (5 + 4294967296) = transmitted mock 5.
Proof. exact (counter_period mock 5 mock_configured). Defined.

(* ===================================================================== *)
(** ** Further properties of the configuration *)
(* ===================================================================== *)

Lemma termios_eq (t1 t2 : termios) :
  c_iflag t1 = c_iflag t2 -> c_oflag t1 = c_oflag t2 ->
  c_cflag t1 = c_cflag t2 -> c_lflag t1 = c_lflag t2 ->
  c_line t1 = c_line t2 -> c_cc t1 = c_cc t2 ->
  c_ispeed t1 = c_ispeed t2 -> c_ospeed t1 = c_ospeed t2 ->
  t1 = t2.
Proof. destruct t1, t2. cbn. intros. subst. reflexivity. Qed.

Lemma cflag_twice (c : Z) :
  Z.lor (Z.land (Z.lor (Z.land c (u32 (Z.lnot cflag_written))) cflag_value)
                (u32 (Z.lnot cflag_written))) cflag_value
  = Z.lor (Z.land c (u32 (Z.lnot cflag_written))) cflag_value.
Proof. flag_eq c. Qed.

Lemma iflag_twice (c : Z) :
  Z.land (Z.land c (u32 (Z.lnot iflag_cleared))) (u32 (Z.lnot iflag_cleared))
  = Z.land c (u32 (Z.lnot iflag_cleared)).
Proof. flag_eq c. Qed.

(** X9 (configuring twice).  Applying the configuration to a structure
    that is already configured changes nothing: a second run of the program
    on the same port commits the same settings as the first. *)
Theorem configure_idempotent (t : termios) :
  configure (configure t) = configure t.
Proof.
  apply termios_eq.
  - rewrite !configure_iflag. apply iflag_twice.
  - reflexivity.
  - rewrite !configure_cflag. apply cflag_twice.
  - reflexivity.
  - reflexivity.
  - rewrite !configure_cc.
    rewrite (list_insert_insert_ne _ VMIN VTIME) by discriminate.
    rewrite (list_insert_insert_eq _ VTIME 5 5).
    rewrite (list_insert_insert_eq _ VMIN 0 0). reflexivity.
  - reflexivity.
  - reflexivity.
Qed.

Lemma u32_range (z : Z) : is_u32 (u32 z).
Proof. unfold is_u32, u32. apply Z.mod_pos_bound. lia. Qed.

Lemma is_u32_bits (x : Z) :
  0 <= x -> (forall i, 32 <= i -> Z.testbit x i = false) -> is_u32 x.
Proof.
  intros Hx Hbits.
  assert (Heq : x = x mod 2 ^ 32).
  { apply Z.bits_inj'. intros i Hi. destruct (Z.lt_ge_cases i 32).
    - rewrite Z.mod_pow2_bits_low by lia. reflexivity.
    - rewrite Z.mod_pow2_bits_high by lia. apply Hbits. lia. }
  unfold is_u32. rewrite Heq. change 4294967296 with (2 ^ 32).
  apply Z.mod_pos_bound. lia.
Qed.

Lemma land_u32_range (c m : Z) : is_u32 (Z.land c (u32 m)).
Proof.
  pose proof (u32_range m) as Hm. unfold is_u32 in Hm.
  apply is_u32_bits.
  - apply Z.land_nonneg. right. lia.
  - intros i Hi. rewrite Z.land_spec, u32_spec by lia.
    replace (i <? 32) with false by (symmetry; apply Z.ltb_ge; lia).
    apply andb_false_r.
Qed.

Lemma lor_range (a b : Z) : is_u32 a -> is_u32 b -> is_u32 (Z.lor a b).
Proof.
  intros Ha Hb. apply is_u32_bits.
  - apply Z.lor_nonneg. unfold is_u32 in *. lia.
  - intros i Hi. rewrite Z.lor_spec, !testbit_above by assumption. reflexivity.
Qed.

(** X10 (the result is a proper structure).  The configured structure has
    every flag word within 32 bits, whatever the baseline holds; and when
    the baseline has [NCCS] control characters, each a byte, so has the
    result. *)
Theorem configure_wf (t : termios) :
  (is_u32 (c_iflag (configure t)) /\ is_u32 (c_oflag (configure t)) /\
   is_u32 (c_cflag (configure t)) /\ is_u32 (c_lflag (configure t))) /\
  (termios_wf t -> termios_wf (configure t)).
Proof.
  assert (Hflags : is_u32 (c_iflag (configure t)) /\ is_u32 (c_oflag (configure t)) /\
                   is_u32 (c_cflag (configure t)) /\ is_u32 (c_lflag (configure t))).
  { rewrite configure_iflag, configure_cflag, configure_oflag, configure_lflag.
    split; [apply land_u32_range|]. split; [unfold is_u32; lia|].
    split; [|unfold is_u32; lia].
    apply lor_range; [apply land_u32_range|].
    unfold is_u32. vm_compute. split; [discriminate | reflexivity]. }
  split; [exact Hflags|].
  intros (_ & _ & _ & _ & Hlen & Hcc).
  destruct Hflags as (H1 & H2 & H3 & H4). unfold termios_wf.
  split; [exact H1|]. split; [exact H2|]. split; [exact H3|]. split; [exact H4|].
  rewrite configure_cc. split.
  - rewrite !length_insert. exact Hlen.
  - apply Forall_insert; [apply Forall_insert|]; try lia. exact Hcc.
Qed.

Lemma configure_wf_witness : termios_wf (configure tty_9600).
Proof. exact (proj2 (configure_wf tty_9600) tty_9600_wf). Defined.

Lemma tty_115200_7E1_wf : termios_wf tty_115200_7E1.
Proof.
  unfold termios_wf, is_u32. cbn. repeat split; try lia.
  repeat (constructor; [lia|]). constructor.
Defined.

Lemma tty_9600_like_7E1 : same_elsewhere tty_9600 tty_115200_7E1.
Proof.
  unfold same_elsewhere. repeat split.
  intros i Hmin Htime. unfold VMIN, VTIME in *.
  do 32 (destruct i as [|i]; [first [reflexivity | contradiction]|]).
  reflexivity.
Defined.

(** X11 (the result does not depend on what is overwritten).  Two baseline
    structures that differ only in speed, character size, parity, stop
    bits, flow control, CLOCAL, CREAD, IGNBRK, the local and output flag
    words, VMIN and VTIME are configured to the same structure. *)
Theorem configure_forgets (t1 t2 : termios) :
  termios_wf t1 -> termios_wf t2 -> same_elsewhere t1 t2 ->
  configure t1 = configure t2.
Proof.
  intros (Hi1 & _ & Hc1 & _ & Hlen1 & _) (Hi2 & _ & Hc2 & _ & Hlen2 & _)
         (Hc & Hi & Hline & _ & Hcc).
  apply termios_eq; try reflexivity.
  - rewrite !configure_iflag, !land_u32_lnot by assumption. exact Hi.
  - rewrite !configure_cflag, !land_u32_lnot by assumption. rewrite Hc. reflexivity.
  - rewrite !configure_line. exact Hline.
  - rewrite !configure_cc. apply list_eq. intros i.
    destruct (decide (i = VTIME)) as [-> | Htime].
    { rewrite !list_lookup_insert_eq; [reflexivity | |];
        rewrite length_insert; unfold VTIME, NCCS in *; lia. }
    rewrite !(list_lookup_insert_ne _ VTIME i) by congruence.
    destruct (decide (i = VMIN)) as [-> | Hmin].
    { rewrite !list_lookup_insert_eq; [reflexivity | |];
        unfold VMIN, NCCS in *; lia. }
    rewrite !(list_lookup_insert_ne _ VMIN i) by congruence.
    apply Hcc; assumption.
Qed.

Lemma configure_forgets_witness : configure tty_9600 = configure tty_115200_7E1.
Proof.
  exact (configure_forgets tty_9600 tty_115200_7E1
           tty_9600_wf tty_115200_7E1_wf tty_9600_like_7E1).
Defined.

(** X12 (the remaining committed settings).  When the configuration phase
    succeeds, the committed settings have CLOCAL and CREAD on (modem
    control lines ignored, receiver enabled), every bit of [c_cflag] that
    the configuration writes at a value that does not depend on the
    baseline, and output processing off, so that the newline of a message
    goes out as the one byte it is. *)
Theorem committed_local_receiver (w : world) (n : N) :
  configured w ->
  exists tty,
    committed (trace w n) = Some tty /\
    Z.land (c_cflag tty) CLOCAL = CLOCAL /\
    Z.land (c_cflag tty) CREAD = CREAD /\
    Z.land (c_cflag tty) cflag_written = cflag_value /\
    c_oflag tty = 0.
Proof.
  intros Hc. exists (configure (baseline w)).
  split; [apply committed_configured, Hc|].
  rewrite !configure_cflag_mask by reflexivity.
  repeat split.
Qed.

Lemma committed_local_receiver_witness :
  exists tty,
    committed (trace mock 3) = Some tty /\
    Z.land (c_cflag tty) CLOCAL = CLOCAL /\
    Z.land (c_cflag tty) CREAD = CREAD /\
    Z.land (c_cflag tty) cflag_written = cflag_value /\
    c_oflag tty = 0.
Proof. exact (committed_local_receiver mock 3 mock_configured). Defined.

Lemma cflag_after_set_speed (c : Z) :
  set_bits (clear_bits
    (set_bits (clear_bits c cflag_speed) B115200) cflag_speed) B115200
  = Z.lor (Z.land c (u32 (Z.lnot cflag_speed))) B115200.
Proof. flag_eq c. Qed.

Lemma changed_only_speed (c : Z) :
  Z.land (changed_bits c (Z.lor (Z.ldiff c cflag_speed) B115200))
         (Z.lnot cflag_speed) = 0.
Proof. unfold changed_bits. flag_eq c. Qed.

Lemma speed_read_back (c : Z) :
  Z.land (Z.lor (Z.land c (u32 (Z.lnot cflag_speed))) B115200) cflag_speed
  = B115200.
Proof. flag_eq c. Qed.

Lemma marker_cleared (c : Z) : Z.land (clear_bits c IBAUD0) IBAUD0 = 0.
Proof. flag_eq c. Qed.

(** X13 (the two parts of the configuration).  The two speed calls of
    lines 25-26 both return 0, so the results the source discards are never
    an error; they change [c_cflag] only in the speed bits, leave the
    local and output flag words and the control characters alone, and the
    speed then reads 115200 both ways.  The eleven assignments of lines
    27-37, on their own, change in [c_cflag] only the CSIZE, CLOCAL, CREAD,
    PARENB, PARODD, CSTOPB and CRTSCTS bits, clear in [c_iflag] the IGNBRK,
    IXON, IXOFF and IXANY bits and nothing else, keep every control
    character other than VMIN and VTIME, and set [c_lflag] and [c_oflag]
    to 0. *)
Theorem configuration_in_two_parts (t : termios) :
  termios_wf t ->
  (fst (cfsetispeed t B115200) = 0 /\
   fst (cfsetospeed (snd (cfsetispeed t B115200)) B115200) = 0) /\
  (Z.land (changed_bits (c_cflag t) (c_cflag (set_speed t)))
          (Z.lnot cflag_speed) = 0 /\
   cfgetispeed (set_speed t) = B115200 /\
   cfgetospeed (set_speed t) = B115200 /\
   c_lflag (set_speed t) = c_lflag t /\ c_oflag (set_speed t) = c_oflag t /\
   c_cc (set_speed t) = c_cc t) /\
  frame_named_only t (set_modes t).
Proof.
  intros Hwf. split; [split; reflexivity|]. split; [|apply set_modes_frame, Hwf].
  destruct Hwf as (_ & _ & Hcf & _).
  destruct (set_speed_flags t) as [Hc Hi].
  rewrite cflag_after_set_speed in Hc.
  split; [|split; [|split; [|repeat split]]].
  - rewrite Hc, land_u32_lnot by exact Hcf. apply changed_only_speed.
  - unfold cfgetispeed. rewrite Hi, marker_cleared. cbn [Z.eqb negb].
    rewrite Hc. apply speed_read_back.
  - unfold cfgetospeed. rewrite Hc. apply speed_read_back.
Qed.

Lemma configuration_in_two_parts_witness :
  cfgetispeed (set_speed tty_9600) = B115200 /\
  cfgetospeed (set_speed tty_9600) = B115200 /\
  frame_named_only tty_9600 (set_modes tty_9600).
Proof.
  destruct (configuration_in_two_parts tty_9600 tty_9600_wf)
    as (_ & (_ & H1 & H2 & _) & H3).
  split; [exact H1|]. split; [exact H2 | exact H3].
Defined.

(** X14 (a device that cannot be opened).  When [open] fails the run is
    the [open] call and one diagnostic naming it, after any number of
    steps: the program queries nothing, closes nothing, writes nothing and
    has exited with status 1. *)
Theorem open_failure_run (w : world) (n : N) :
  open_failed w ->
  trace w n =
    [EvOpen port (Z.lor O_WRONLY O_NOCTTY) (the_fd w);
     EvPerror "open"%string (open_errno w)] /\
  final w n = Exited 1 /\
  count_of is_close (trace w n) = 0%nat /\
  writes (trace w n) = [].
Proof.
  intros Ho. pose proof (startup_open_failed w Ho) as Hs.
  assert (Hst : snd (startup w) = Exited 1) by (rewrite Hs; reflexivity).
  rewrite (trace_exited w 1 n Hst), (final_exited w 1 n Hst), Hs.
  repeat split.
Qed.

Lemma open_failure_run_witness :
  trace no_device 8 =
    [EvOpen port (Z.lor O_WRONLY O_NOCTTY) (the_fd no_device);
     EvPerror "open"%string (open_errno no_device)] /\
  final no_device 8 = Exited 1 /\
  count_of is_close (trace no_device 8) = 0%nat /\
  writes (trace no_device 8) = [].
Proof. apply (open_failure_run no_device 8). reflexivity. Defined.

(** X15 (the two later failure paths).  When [tcgetattr] fails, the run is
    [open], the failed [tcgetattr], the diagnostic and then [close], and
    [tcsetattr] is never tried.  When [tcsetattr] fails, the run is [open],
    [tcgetattr], the one [tcsetattr] with the configured structure, the
    diagnostic and then [close].  In both the diagnostic comes before the
    [close], and nothing follows the [close]. *)
Theorem later_failure_runs (w : world) (n : N) :
  (query_failed w ->
     trace w n =
       [EvOpen port (Z.lor O_WRONLY O_NOCTTY) (the_fd w);
        EvTcgetattr (the_fd w) (tcgetattr_ret w (the_fd w));
        EvPerror "tcgetattr"%string (tcgetattr_errno w);
        EvClose (the_fd w)] /\
     count_of is_apply (trace w n) = 0%nat) /\
  (apply_failed w ->
     trace w n =
       [EvOpen port (Z.lor O_WRONLY O_NOCTTY) (the_fd w);
        EvTcgetattr (the_fd w) 0;
        EvTcsetattr (the_fd w) TCSANOW (configure (baseline w))
          (tcsetattr_ret w (the_fd w) TCSANOW (configure (baseline w)));
        EvPerror "tcsetattr"%string (tcsetattr_errno w);
        EvClose (the_fd w)] /\
     committed (trace w n) = None).
Proof.
  split.
  - intros Hq. pose proof (startup_query_failed w Hq) as Hs.
    assert (Hst : snd (startup w) = Exited 1) by (rewrite Hs; reflexivity).
    rewrite (trace_exited w 1 n Hst), Hs. split; reflexivity.
  - intros Ha. pose proof (startup_apply_failed w Ha) as Hs.
    assert (Hst : snd (startup w) = Exited 1) by (rewrite Hs; reflexivity).
    rewrite (trace_exited w 1 n Hst), Hs. split; [reflexivity|].
    destruct Ha as (_ & _ & Ha). unfold committed. cbn.
    destruct (Z.eqb_spec
      (tcsetattr_ret w (the_fd w) TCSANOW (configure (baseline w))) 0)
      as [H0 | _]; [contradiction | reflexivity].
Qed.

Lemma later_failure_runs_witness :
  count_of is_apply (trace not_a_tty 2) = 0%nat /\
  committed (trace rejects_settings 2) = None.
Proof.
  destruct (later_failure_runs not_a_tty 2) as [Hq _].
  destruct (later_failure_runs rejects_settings 2) as [_ Ha].
  split.
  - apply Hq. split; vm_compute; discriminate.
  - apply Ha. split; [|split]; vm_compute; [discriminate | reflexivity | discriminate].
Defined.
